(** * Recompilation utilities of the sourcify verification service

    A shallow embedding of the recompilation module (compiler lookup,
    compiler invocation, extraction of the compiled artifacts, the two
    bytecode helpers, and the check of an endpoint) together with the
    properties checked against its specification.

    JavaScript strings are sequences of UTF-16 code units, so they are
    modelled as [list N]; numbers that the code computes with are integral
    (or NaN), so they are modelled as [NaN | Num z].  One call of
    [recompile] is followed from start to end: an [await] is sequencing,
    and other calls running in between are not modelled. *)

From stdpp Require Import base decidable option numbers list gmap strings.
From Stdlib Require Import ZArith Lia.

Local Open Scope Z_scope.

(** ** JavaScript strings *)

Module JsString.

Abbreviation jsstring := (list N).

(** An ASCII literal as a sequence of code units. *)
Fixpoint lit (s : string) : jsstring :=
  match s with
  | EmptyString => []
  | String a s' => Ascii.N_of_ascii a :: lit s'
  end.
Arguments lit : simpl never.

(** [a === b] on two strings: the same sequence of code units. *)
Definition str_eqb (a b : jsstring) : bool := bool_decide (a = b).

(** WhiteSpace and LineTerminator code points of ECMAScript: what
    [String.prototype.trim] strips and [parseInt] skips. *)
Definition whiteSpaceCodes : list N :=
  [0x09; 0x0A; 0x0B; 0x0C; 0x0D; 0x20; 0xA0; 0x1680;
   0x2028; 0x2029; 0x202F; 0x205F; 0x3000; 0xFEFF]%N.

Definition isWhiteSpace (c : N) : bool :=
  existsb (N.eqb c) whiteSpaceCodes || ((0x2000 <=? c) && (c <=? 0x200A))%N.

Fixpoint trimStart (s : jsstring) : jsstring :=
  match s with
  | c :: s' => if isWhiteSpace c then trimStart s' else s
  | [] => []
  end.

Definition trimEnd (s : jsstring) : jsstring :=
  reverse (trimStart (reverse s)).

(** [s.trim()] *)
Definition trim (s : jsstring) : jsstring := trimEnd (trimStart s).

(** [s.startsWith(p)] *)
Fixpoint startsWith (s p : jsstring) {struct p} : bool :=
  match p, s with
  | [], _ => true
  | c :: p', d :: s' => bool_decide (c = d) && startsWith s' p'
  | _ :: _, [] => false
  end.

End JsString.
Export JsString.

(** ** JavaScript numbers, as far as the module computes with them *)

Module JsNumber.

(** Integral doubles and NaN.  Every integer met here is a string length
    or at most 2 * 0xFFFF + 4 away from one, far inside the range where
    doubles are exact.  [-0] is not told apart from [+0]: the one place
    that can produce it ([parseInt]) is followed by [* 2 + 4]. *)
Inductive number : Type :=
| NaN
| Num (z : Z).

Definition mul (a b : number) : number :=
  match a, b with
  | Num x, Num y => Num (x * y)
  | _, _ => NaN
  end.

Definition add (a b : number) : number :=
  match a, b with
  | Num x, Num y => Num (x + y)
  | _, _ => NaN
  end.

Definition sub (a b : number) : number :=
  match a, b with
  | Num x, Num y => Num (x - y)
  | _, _ => NaN
  end.

(** ToIntegerOrInfinity: NaN becomes 0. *)
Definition ToIntegerOrInfinity (n : number) : Z :=
  match n with
  | NaN => 0
  | Num z => z
  end.

(** Position arguments of [slice]: a negative index counts from the end,
    and everything is clamped to [0, len]. *)
Definition relativeIndex (len i : Z) : Z :=
  if i <? 0 then Z.max (len + i) 0 else Z.min i len.

(** [s.slice(start, end)]; [end_ = None] is the omitted argument. *)
Definition slice (s : jsstring) (start : number) (end_ : option number)
  : jsstring :=
  let len := Z.of_nat (length s) in
  let from := relativeIndex len (ToIntegerOrInfinity start) in
  let to :=
    match end_ with
    | None => len
    | Some e => relativeIndex len (ToIntegerOrInfinity e)
    end in
  if to <=? from then []
  else take (Z.to_nat (to - from)) (drop (Z.to_nat from) s).

(** Value of a hexadecimal digit, [None] for any other code unit. *)
Definition hexDigit (c : N) : option Z :=
  if ((0x30 <=? c) && (c <=? 0x39))%N then Some (Z.of_N c - 0x30)
  else if ((0x41 <=? c) && (c <=? 0x46))%N then Some (Z.of_N c - 0x41 + 10)
  else if ((0x61 <=? c) && (c <=? 0x66))%N then Some (Z.of_N c - 0x61 + 10)
  else None.

(** The longest run of hexadecimal digits at the front of [s], as digit
    values. *)
Fixpoint leadingHexDigits (s : jsstring) : list Z :=
  match s with
  | c :: s' =>
      match hexDigit c with
      | Some d => d :: leadingHexDigits s'
      | None => []
      end
  | [] => []
  end.

(** The integer written by a list of digit values in radix 16. *)
Definition hexValue (ds : list Z) : Z :=
  foldl (fun acc d => 16 * acc + d) 0 ds.

Definition stripSign (s : jsstring) : Z * jsstring :=
  match s with
  | 0x2D%N :: s' => (-1, s')
  | 0x2B%N :: s' => (1, s')
  | _ => (1, s)
  end.

Definition stripHexPrefix (s : jsstring) : jsstring :=
  match s with
  | 0x30%N :: 0x78%N :: s' => s'
  | 0x30%N :: 0x58%N :: s' => s'
  | _ => s
  end.

(** [parseInt(s, 16)]: skip white space, take a sign, drop a [0x] or
    [0X] prefix, read hexadecimal digits up to the first code unit that is
    not one; NaN when there is no digit to read. *)
Definition parseInt16 (s : jsstring) : number :=
  let '(sign, s1) := stripSign (trimStart s) in
  match leadingHexDigits (stripHexPrefix s1) with
  | [] => NaN
  | ds => Num (sign * hexValue ds)
  end.

End JsNumber.
Export JsNumber.

(** ** Bytecode helpers *)

Module Bytecode.

(** [parseInt(bytecode.slice(-4), 16) * 2 + 4]: the last 4 chars of the
    bytecode specify the byte size of the metadata component. *)
Definition metadataSize (bytecode : jsstring) : number :=
  add (mul (parseInt16 (slice bytecode (Num (-4)) None)) (Num 2)) (Num 4).

(** Removes post-fixed metadata from a bytecode string.  Every operation
    involved ([slice], [parseInt], arithmetic on numbers) is defined on all
    of its inputs, so the function is one from strings to strings. *)
Definition getBytecodeWithoutMetadata (bytecode : jsstring) : jsstring :=
  slice bytecode (Num 0)
        (Some (sub (Num (Z.of_nat (length bytecode))) (metadataSize bytecode))).

(** What a JavaScript expression over strings and comparisons evaluates
    to: [a && b] yields one of its operands, not a coerced boolean. *)
Inductive value : Type :=
| VString (s : jsstring)
| VBoolean (b : bool).

(** ToBoolean *)
Definition truthy (v : value) : bool :=
  match v with
  | VString [] => false
  | VString (_ :: _) => true
  | VBoolean b => b
  end.

(** [a && b]; both operands are free of effects here, so evaluating the
    right one eagerly changes nothing. *)
Definition js_and (a b : value) : value := if truthy a then b else a.

(** Checks whether the provided bytecodes probably differ due to
    immutable variables. *)
Definition probablyImmutables (bytecode1 bytecode2 : jsstring) : value :=
  js_and
    (js_and
       (js_and (VString bytecode1) (VString bytecode2))
       (VBoolean (bool_decide (length bytecode1 = length bytecode2))))
    (VBoolean (negb (str_eqb bytecode1 bytecode2))).

End Bytecode.
Export Bytecode.

(** ** Exceptions and results *)

Module Outcome.

(** What a [throw] or a rejected promise carries. *)
Inductive exn : Type :=
| Error (message : jsstring)            (* [new Error(message)] *)
| TypeError                             (* raised by the runtime itself *)
| Foreign (name message : jsstring).    (* an error object of a library *)

Inductive outcome (A : Type) : Type :=
| Ok (a : A)
| Throw (e : exn).
Arguments Ok {A} a.
Arguments Throw {A} e.

Definition obind {A B} (o : outcome A) (k : A -> outcome B) : outcome B :=
  match o with
  | Ok a => k a
  | Throw e => Throw e
  end.

End Outcome.
Export Outcome.

(** ** Values produced by [JSON.parse] *)

Module Json.

(** A double that [JSON.parse] can produce: a zero, plus or minus
    [mantissa * 2 ^ exponent], or an infinity (from an overflowing
    literal). *)
Inductive double : Type :=
| Zero (negative : bool)
| Finite (negative : bool) (mantissa : positive) (exponent : Z)
| Infinity (negative : bool).

(** An object is kept as its list of own properties; [JSON.parse] makes
    every key an own data property, and a repeated key keeps one value, so
    lookup takes the first binding. *)
#[warnings="-register-all"]
Inductive json : Type :=
| JNull
| JBool (b : bool)
| JNumber (d : double)
| JString (s : jsstring)
| JArray (items : list json)
| JObject (props : list (jsstring * json)).

Fixpoint ownProperty (props : list (jsstring * json)) (key : jsstring)
  : option json :=
  match props with
  | (k, v) :: rest => if str_eqb k key then Some v else ownProperty rest key
  | [] => None
  end.

(** The value reached from [j] through own properties along [keys]. *)
Fixpoint ownPath (j : json) (keys : list jsstring) : option json :=
  match keys with
  | [] => Some j
  | k :: rest =>
      match j with
      | JObject props =>
          match ownProperty props k with
          | Some x => ownPath x rest
          | None => None
          end
      | _ => None
      end
  end.

(** [items.join(sep)] on strings already converted. *)
Fixpoint joinWith (sep : jsstring) (parts : list jsstring) : jsstring :=
  match parts with
  | [] => []
  | [p] => p
  | p :: rest => p ++ sep ++ joinWith sep rest
  end.

End Json.
Export Json.

(** ** The platform the module runs on

    Node's library functions, the file system, the network and the
    collaborating packages are not part of the module: they are taken as an
    interface.  The general properties below hold for each implementation;
    the scenarios are run on the small one of [Mock]. *)

Module Node.

Abbreviation Buffer := (list N).

(** What [fetch(uri)] settles to. *)
Inductive fetched : Type :=
| Rejected (reason : exn)
| Response (status : Z) (body : outcome Buffer).

(** The object returned by [spawnSync]; [stdout] is [None] when the
    property is [null], and a buffer (possibly of length 0) otherwise. *)
Record SpawnSyncReturns : Type := {
  stdout : option Buffer;
  stderr : option Buffer;
  error : option exn
}.

(** A loaded compiler module, seen through its [compile] method. *)
Record Soljson : Type := {
  compile : jsstring -> outcome jsstring
}.

Inductive level : Type := INFO | ERROR.

(** The second argument of a logging call. *)
Inductive logmsg : Type :=
| Text (s : jsstring)
| Err (e : exn).

(** A value met while reading the compiler output: [undefined], a value
    built by [JSON.parse], or an object or function of the standard library
    reached through a prototype chain. *)
Inductive jsvalue (builtin : Type) : Type :=
| Undefined
| FromJson (j : json)
| Builtin (b : builtin).
Arguments Undefined {builtin}.
Arguments FromJson {builtin} j.
Arguments Builtin {builtin} b.

(** One field of the object handed to the logger. *)
Inductive logval (builtin : Type) : Type :=
| LString (s : jsstring)
| LValues (vs : list (jsvalue builtin)).
Arguments LString {builtin} s.
Arguments LValues {builtin} vs.

(** A call [log.info(fields, message)] or [log.error(fields, message)]. *)
Record LogRecord (builtin : Type) : Type := {
  lvl : level;
  fields : list (string * logval builtin);
  msg : option logmsg
}.
Arguments lvl {builtin} _.
Arguments fields {builtin} _.
Arguments msg {builtin} _.

Class Platform : Type := {
  (* the standard library's objects and functions, and what a property
     read finds beyond the own properties that JSON.parse created *)
  builtin : Type;
  inherited : json -> jsstring -> jsvalue builtin;
  builtin_get : builtin -> jsstring -> jsvalue builtin;
  builtin_toString : builtin -> outcome jsstring;
  builtin_trim : builtin -> outcome jsstring;
  (* the file system *)
  FS : Type;
  existsSync : FS -> jsstring -> bool;
  mkdirSync_recursive : FS -> jsstring -> outcome FS;
  writeFileSync_0o755 : FS -> jsstring -> Buffer -> outcome FS;
  (* process.env *)
  env : gmap jsstring jsstring;
  (* path *)
  Path_join : jsstring -> jsstring -> jsstring;
  Path_dirname : jsstring -> jsstring;
  Path_resolve : jsstring -> jsstring -> jsstring;
  (* globals *)
  encodeURIComponent : jsstring -> outcome jsstring;
  JSON_stringify : json -> jsstring;
  JSON_parse : jsstring -> outcome json;
  Number_toString : double -> jsstring;
  Buffer_toString : Buffer -> jsstring;
  (* node-fetch and child_process *)
  fetch : jsstring -> fetched;
  spawnSync : FS -> jsstring -> list jsstring -> jsstring
              -> outcome SpawnSyncReturns;
  (* solc: [setupMethods(require(path))] and [loadRemoteVersion] *)
  requireSoljson : FS -> jsstring -> outcome Soljson;
  loadRemoteVersion : jsstring -> outcome Soljson;
  (* @ethereum-sourcify/core: the metadata object, the sources, and
     reformatMetadata with the records it logs; compilerVersion reads
     metadata.compiler.version, a string by the type of useCompiler *)
  Metadata : Type;
  StringMap : Type;
  reformatMetadata :
    Metadata -> StringMap
    -> list (LogRecord builtin) * outcome (json * jsstring * jsstring);
  compilerVersion : Metadata -> jsstring
}.

End Node.
Export Node.

(** ** Reading the parsed compiler output *)

Section Values.
Context {P : Platform}.

Abbreviation val := (jsvalue builtin).

(** ToBoolean *)
Definition ToBoolean (v : val) : bool :=
  match v with
  | Undefined => false
  | FromJson JNull => false
  | FromJson (JBool b) => b
  | FromJson (JNumber (Zero _)) => false
  | FromJson (JNumber _) => true
  | FromJson (JString []) => false
  | FromJson (JString (_ :: _)) => true
  | FromJson (JArray _) => true
  | FromJson (JObject _) => true
  | Builtin _ => true
  end.

(** [v.name] for the property names written in the module ([contracts],
    [errors], [evm], [bytecode], [deployedBytecode], [object], [metadata],
    [severity], [message]).  No prototype of the standard library defines
    one of them, and neither do the own properties of strings and arrays,
    so on a parsed value only an object's own property answers. *)
Definition getField (v : val) (name : jsstring) : outcome val :=
  match v with
  | Undefined => Throw TypeError
  | FromJson JNull => Throw TypeError
  | FromJson (JObject props) =>
      match ownProperty props name with
      | Some x => Ok (FromJson x)
      | None => Ok Undefined
      end
  | FromJson _ => Ok Undefined
  | Builtin b => Ok (builtin_get b name)
  end.

(** [v[key]] for a key computed at run time: an own property of an
    object if there is one, otherwise whatever the receiver's prototype
    chain (or its index and length properties) has under that key. *)
Definition getComputed (v : val) (key : jsstring) : outcome val :=
  match v with
  | Undefined => Throw TypeError
  | FromJson JNull => Throw TypeError
  | FromJson (JObject props) =>
      match ownProperty props key with
      | Some x => Ok (FromJson x)
      | None => Ok (inherited (JObject props) key)
      end
  | FromJson j => Ok (inherited j key)
  | Builtin b => Ok (builtin_get b key)
  end.

(** ToString of a parsed value, as a template literal applies it.  An
    array joins its elements with a comma, [null] elements giving the empty
    string; an object answers [[object Object]] unless an own [toString]
    property (never callable in parsed JSON) hides the inherited method. *)
Fixpoint ToString_json (j : json) : outcome jsstring :=
  match j with
  | JNull => Ok (lit "null")
  | JBool true => Ok (lit "true")
  | JBool false => Ok (lit "false")
  | JNumber d => Ok (Number_toString d)
  | JString s => Ok s
  | JArray items =>
      obind
        ((fix elements (l : list json) : outcome (list jsstring) :=
            match l with
            | [] => Ok []
            | JNull :: l' => obind (elements l') (fun r => Ok ([] :: r))
            | x :: l' =>
                obind (ToString_json x) (fun sx =>
                obind (elements l') (fun r => Ok (sx :: r)))
            end) items)
        (fun parts => Ok (joinWith (lit ",") parts))
  | JObject props =>
      match ownProperty props (lit "toString") with
      | Some _ => Throw TypeError
      | None => Ok (lit "[object Object]")
      end
  end.

Definition ToString (v : val) : outcome jsstring :=
  match v with
  | Undefined => Ok (lit "undefined")
  | FromJson j => ToString_json j
  | Builtin b => builtin_toString b
  end.

(** [v.trim()]: the method exists on strings; on any other parsed value
    the property is missing or not callable. *)
Definition callTrim (v : val) : outcome jsstring :=
  match v with
  | FromJson (JString s) => Ok (trim s)
  | Builtin b => builtin_trim b
  | _ => Throw TypeError
  end.

(** [e.severity === "error"] *)
Definition severityIsError (e : json) : outcome bool :=
  obind (getField (FromJson e) (lit "severity")) (fun sev =>
  Ok match sev with
     | FromJson (JString s) => str_eqb s (lit "error")
     | _ => false
     end).

(** [errors.filter(e => e.severity === "error")] on the elements of an
    array. *)
Fixpoint filterErrors (items : list json) : outcome (list json) :=
  match items with
  | [] => Ok []
  | e :: rest =>
      obind (severityIsError e) (fun keep =>
      obind (filterErrors rest) (fun r =>
      Ok (if keep then e :: r else r)))
  end.

(** [.map(e => e.message)] *)
Fixpoint mapMessages (items : list json) : outcome (list val) :=
  match items with
  | [] => Ok []
  | e :: rest =>
      obind (getField (FromJson e) (lit "message")) (fun m =>
      obind (mapMessages rest) (fun r => Ok (m :: r)))
  end.

End Values.

(** ** The recompilation module *)

Section Recompile.
Context {P : Platform}.

Abbreviation val := (jsvalue builtin).

(** What a call can change or leave behind: the file system, the records
    handed to the logger (oldest first), and the URIs requested from the
    network (oldest first). *)
Record World : Type := {
  fs : FS;
  logged : list (LogRecord builtin);
  requests : list jsstring
}.

(** A computation reads and updates the world and either returns or
    throws; an [await] is the sequencing of this monad. *)
Definition M (A : Type) : Type := World -> outcome A * World.

Definition ret {A} (a : A) : M A := fun w => (Ok a, w).

Definition throw {A} (e : exn) : M A := fun w => (Throw e, w).

Definition bind {A B} (c : M A) (k : A -> M B) : M B :=
  fun w =>
    match c w with
    | (Ok a, w') => k a w'
    | (Throw e, w') => (Throw e, w')
    end.

Definition lift {A} (o : outcome A) : M A := fun w => (o, w).

(** The world after more records have reached the logger. *)
Definition addLogs (rs : list (LogRecord builtin)) (w : World) : World :=
  {| fs := fs w; logged := logged w ++ rs; requests := requests w |}.

(** The world after one more request has been sent. *)
Definition addRequest (uri : jsstring) (w : World) : World :=
  {| fs := fs w; logged := logged w; requests := requests w ++ [uri] |}.

Definition log (l : level) (object : list (string * logval builtin))
           (m : option logmsg) : M unit :=
  fun w => (Ok tt, addLogs [{| lvl := l; fields := object; msg := m |}] w).

Definition fs_existsSync (path : jsstring) : M bool :=
  fun w => (Ok (existsSync (fs w) path), w).

Definition fs_update (f : FS -> outcome FS) : M unit :=
  fun w =>
    match f (fs w) with
    | Ok fs' =>
        (Ok tt, {| fs := fs'; logged := logged w; requests := requests w |})
    | Throw e => (Throw e, w)
    end.

(** [await fetch(uri)]: the request is made, and a rejection is thrown at
    the [await]. *)
Definition await_fetch (uri : jsstring) : M (Z * outcome Buffer) :=
  fun w =>
    match fetch uri with
    | Rejected reason => (Throw reason, addRequest uri w)
    | Response status body => (Ok (status, body), addRequest uri w)
    end.

(** [process.env.NAME || fallback] *)
Definition envOr (name fallback : jsstring) : jsstring :=
  match env !! name with
  | Some (c :: s) => c :: s
  | _ => fallback
  end.

Local Notation "x <- c ;; k" := (bind c (fun x => k))
  (at level 100, c at next level, right associativity).
Local Notation "c ;;; k" := (bind c (fun _ => k))
  (at level 100, right associativity).

Definition GITHUB_SOLC_REPO : jsstring :=
  lit "https://github.com/ethereum/solc-bin/raw/gh-pages/linux-amd64/".

Definition StatusCodes_OK : Z := 200.

Record RecompilationResult : Type := {
  bytecode : jsstring;
  deployedBytecode : jsstring;
  metadata : jsstring
}.

Definition LOC : string * logval builtin :=
  ("loc"%string, LString (lit "[RECOMPILE]")).

Definition fetchSolcFromGitHub (solcPath version fileName : jsstring)
  : M bool :=
  encoded <- lift (encodeURIComponent fileName) ;;
  let githubSolcURI := GITHUB_SOLC_REPO ++ encoded in
  let logObject :=
    [LOC; ("version"%string, LString version);
     ("githubSolcURI"%string, LString githubSolcURI)] in
  log INFO logObject (Some (Text (lit "Fetching executable solc from GitHub"))) ;;;
  res <- await_fetch githubSolcURI ;;
  if bool_decide (res.1 = StatusCodes_OK) then
    log INFO logObject
        (Some (Text (lit "Successfully fetched executable solc from GitHub"))) ;;;
    fs_update (fun f => mkdirSync_recursive f (Path_dirname solcPath)) ;;;
    buffer <- lift res.2 ;;
    fs_update (fun f => writeFileSync_0o755 f solcPath buffer) ;;;
    ret true
  else
    log ERROR logObject
        (Some (Text (lit "Failed fetching executable solc from GitHub"))) ;;;
    ret false.

(** The file name that [getSolcExecutable] builds from the version:
    [`solc-linux-amd64-v${version}`]. *)
Definition solcFileName (version : jsstring) : jsstring :=
  lit "solc-linux-amd64-v" ++ version.

(** The loop of [getSolcExecutable] over the repository paths: the first
    path under which the file exists is returned. *)
Fixpoint firstExisting (repoPaths : list jsstring) (fileName : jsstring)
  : M (option jsstring) :=
  match repoPaths with
  | [] => ret None
  | repoPath :: rest =>
      let solcPath := Path_join repoPath fileName in
      found <- fs_existsSync solcPath ;;
      if found then ret (Some solcPath) else firstExisting rest fileName
  end.

(** [process.env.SOLC_REPO_TMP || Path.join("/tmp", "solc-repo")]: the
    directory that downloads are written to. *)
Definition tmpSolcRepo : jsstring :=
  envOr (lit "SOLC_REPO_TMP") (Path_join (lit "/tmp") (lit "solc-repo")).

(** [process.env.SOLC_REPO || "solc-repo"]: the configured repository. *)
Definition solcRepo : jsstring := envOr (lit "SOLC_REPO") (lit "solc-repo").

(** Returns the path of a native compiler, [None] standing for [null]. *)
Definition getSolcExecutable (version : jsstring) : M (option jsstring) :=
  let fileName := solcFileName version in
  let repoPaths := [tmpSolcRepo; solcRepo] in
  local <- firstExisting repoPaths fileName ;;
  match local with
  | Some solcPath => ret (Some solcPath)
  | None =>
      let tmpSolcPath := Path_join tmpSolcRepo fileName in
      success <- fetchSolcFromGitHub tmpSolcPath version fileName ;;
      ret (if success : bool then Some tmpSolcPath else None)
  end.

(** The first lines of [getSolcJs]: the version as it is used for the
    module's file name and for the remote lookup. *)
Definition canonicalVersion (version : jsstring) : jsstring :=
  let version := trim version in
  if negb (str_eqb version (lit "latest")) && negb (startsWith version (lit "v"))
  then lit "v" ++ version
  else version.

(** Fetches the requested version of the Solidity compiler (soljson);
    [None] is the omitted argument, which defaults to ["latest"]. *)
Definition getSolcJs (version : option jsstring) : M Soljson :=
  let version := canonicalVersion (default (lit "latest") version) in
  let soljsonRepo := envOr (lit "SOLJSON_REPO") (lit "soljson-repo") in
  let soljsonPath :=
    Path_resolve soljsonRepo (lit "soljson-" ++ version ++ lit ".js") in
  let GET_SOLC := ("loc"%string, LString (lit "[GET_SOLC]")) in
  log INFO [GET_SOLC; ("target"%string, LString soljsonPath)]
      (Some (Text (lit "Searching for js solc locally"))) ;;;
  found <- fs_existsSync soljsonPath ;;
  if found then
    log INFO [GET_SOLC] (Some (Text (lit "Found js solc locally"))) ;;;
    fun w => (requireSoljson (fs w) soljsonPath, w)
  else
    log INFO [GET_SOLC; ("version"%string, LString version)]
        (Some (Text (lit "Searching for js solc remotely"))) ;;;
    match loadRemoteVersion version with
    | Throw error_ =>
        log ERROR [GET_SOLC; ("version"%string, LString version)]
            (Some (Text (lit "Could not find solc remotely"))) ;;;
        throw error_
    | Ok soljson =>
        log INFO [GET_SOLC; ("version"%string, LString version)]
            (Some (Text (lit "Found solc remotely"))) ;;;
        ret soljson
    end.

(** Searches for a solc: first for a local executable version, then from
    GitHub and then using [getSolcJs]; returns the stringified output. *)
Definition useCompiler (version : jsstring) (input : json) : M jsstring :=
  let inputStringified := JSON_stringify input in
  solcPath <- getSolcExecutable version ;;
  match solcPath with
  | Some (c :: p) =>
      let solcPath := c :: p in
      let logObject :=
        [LOC; ("version"%string, LString version);
         ("solcPath"%string, LString solcPath)] in
      log INFO logObject
          (Some (Text (lit "Compiling with external executable"))) ;;;
      shellOutputBuffer <-
        (fun w =>
           (spawnSync (fs w) solcPath [lit "--standard-json"] inputStringified,
            w)) ;;
      match stdout shellOutputBuffer with
      | None =>
          log ERROR logObject
              (Some match error shellOutputBuffer with
                    | Some e => Err e
                    | None => Text (lit "Recompilation error")
                    end) ;;;
          throw (Error (lit "Recompilation error"))
      | Some out => ret (Buffer_toString out)
      end
  | _ =>
      soljson <- getSolcJs (Some version) ;;
      lift (compile soljson inputStringified)
  end.

(** [!output.contracts || !output.contracts[fileName] ||
    !output.contracts[fileName][contractName]] *)
Definition targetMissing (output : json) (fileName contractName : jsstring)
  : outcome bool :=
  obind (getField (FromJson output) (lit "contracts")) (fun contracts =>
  if negb (ToBoolean contracts) then Ok true else
  obind (getComputed contracts fileName) (fun file =>
  if negb (ToBoolean file) then Ok true else
  obind (getComputed file contractName) (fun contract =>
  Ok (negb (ToBoolean contract))))).

(** [output.errors.filter(...).map(...)] *)
Definition collectErrors (output : json) : outcome (list val) :=
  obind (getField (FromJson output) (lit "errors")) (fun errors =>
  match errors with
  | FromJson (JArray items) => obind (filterErrors items) mapMessages
  | _ => Throw TypeError
  end).

(** [`0x${contract.evm.<kind>.object}`] *)
Definition hexOf (contract : val) (kind : jsstring) : outcome jsstring :=
  obind (getField contract (lit "evm")) (fun evm =>
  obind (getField evm kind) (fun code =>
  obind (getField code (lit "object")) (fun object =>
  obind (ToString object) (fun text => Ok (lit "0x" ++ text))))).

(** The object returned by [recompile], built from
    [output.contracts[fileName][contractName]]. *)
Definition extractResult (output : json) (fileName contractName : jsstring)
  : outcome RecompilationResult :=
  obind (getField (FromJson output) (lit "contracts")) (fun contracts =>
  obind (getComputed contracts fileName) (fun file =>
  obind (getComputed file contractName) (fun contract =>
  obind (hexOf contract (lit "bytecode")) (fun b =>
  obind (hexOf contract (lit "deployedBytecode")) (fun d =>
  obind (getField contract (lit "metadata")) (fun m =>
  obind (callTrim m) (fun t =>
  Ok {| bytecode := b; deployedBytecode := d; metadata := t |}))))))).

Definition GENERIC_MESSAGE : jsstring :=
  lit "Recompilation error (probably caused by invalid metadata)".

(** The part of [recompile] after [JSON.parse]. *)
Definition extract (version : jsstring) (output : json)
           (fileName contractName : jsstring) : M RecompilationResult :=
  missing <- lift (targetMissing output fileName contractName) ;;
  if missing : bool then
    errors <- lift (collectErrors output) ;;
    log ERROR [LOC; ("fileName"%string, LString fileName);
               ("contractName"%string, LString contractName);
               ("version"%string, LString version);
               ("errors"%string, LValues errors)] None ;;;
    throw (Error GENERIC_MESSAGE)
  else
    lift (extractResult output fileName contractName).

(** The record logged before the compiler is looked for. *)
Definition recompiling (fileName contractName version : jsstring)
  : LogRecord builtin :=
  {| lvl := INFO;
     fields := [LOC; ("fileName"%string, LString fileName);
                ("contractName"%string, LString contractName);
                ("version"%string, LString version)];
     msg := Some (Text (lit "Recompiling")) |}.

(** The record logged when the target contract is missing. *)
Definition missingTarget (fileName contractName version : jsstring)
           (errors : list val) : LogRecord builtin :=
  {| lvl := ERROR;
     fields := [LOC; ("fileName"%string, LString fileName);
                ("contractName"%string, LString contractName);
                ("version"%string, LString version);
                ("errors"%string, LValues errors)];
     msg := None |}.

(** Compiles sources using version and settings specified in metadata. *)
Definition recompile (metadata_ : Metadata) (sources : StringMap)
  : M RecompilationResult :=
  let reformatted := reformatMetadata metadata_ sources in
  r <- (fun w => (reformatted.2, addLogs reformatted.1 w)) ;;
  let '(input, fileName, contractName) := r in
  let version := compilerVersion metadata_ in
  log INFO [LOC; ("fileName"%string, LString fileName);
            ("contractName"%string, LString contractName);
            ("version"%string, LString version)]
      (Some (Text (lit "Recompiling"))) ;;;
  compiled <- useCompiler version input ;;
  output <- lift (JSON_parse compiled) ;;
  extract version output fileName contractName.

End Recompile.

(** ** A platform for examples

    A small implementation of the interface, in the manner of the mocks of
    a test suite: the file system is the list of the paths that exist, and
    a scenario says what the network, the spawned compiler, the parser and
    the compiler modules answer. *)

Module Mock.

Record Scenario : Type := {
  sc_env : gmap jsstring jsstring;
  sc_fetch : jsstring -> fetched;
  sc_spawn : jsstring -> outcome SpawnSyncReturns;
  sc_parse : jsstring -> outcome json;
  sc_require : jsstring -> outcome Soljson;
  sc_remote : jsstring -> outcome Soljson
}.

(** The part of a path before its last [/]. *)
Fixpoint beforeLastSlash (p : jsstring) : option jsstring :=
  match p with
  | [] => None
  | c :: r =>
      match beforeLastSlash r with
      | Some d => Some (c :: d)
      | None => if (c =? 0x2F)%N then Some [] else None
      end
  end.

Definition hexChar (d : N) : N :=
  if (d <? 10)%N then (0x30 + d)%N else (0x41 + (d - 10))%N.

(** Percent-encoding of a code unit below 0x80. *)
Definition percentEncode (c : N) : jsstring :=
  if (((0x30 <=? c) && (c <=? 0x39)) || ((0x41 <=? c) && (c <=? 0x5A))
      || ((0x61 <=? c) && (c <=? 0x7A))
      || existsb (N.eqb c) [0x2D; 0x5F; 0x2E; 0x21; 0x7E; 0x2A; 0x27; 0x28; 0x29])%N
  then [c]
  else [0x25%N; hexChar (c / 16); hexChar (c mod 16)].

Definition encodeAscii (s : jsstring) : outcome jsstring :=
  if forallb (fun c => (c <? 0x80)%N) s
  then Ok (concat (map percentEncode s))
  else Throw (Foreign (lit "URIError") (lit "URI malformed")).

Definition platform (sc : Scenario) : Platform := {|
  builtin := Empty_set;
  inherited := fun _ _ => Undefined;
  builtin_get := fun b _ => match b with end;
  builtin_toString := fun b => match b with end;
  builtin_trim := fun b => match b with end;
  FS := list jsstring;
  existsSync := fun files path => bool_decide (path ∈ files);
  mkdirSync_recursive := fun files dir => Ok (dir :: files);
  writeFileSync_0o755 := fun files path _ => Ok (path :: files);
  env := sc_env sc;
  Path_join := fun a b => a ++ lit "/" ++ b;
  Path_dirname := fun p => default (lit ".") (beforeLastSlash p);
  Path_resolve := fun a b => lit "/srv/" ++ a ++ lit "/" ++ b;
  encodeURIComponent := encodeAscii;
  JSON_stringify := fun _ => lit "{}";
  JSON_parse := sc_parse sc;
  Number_toString := fun _ => lit "0";
  Buffer_toString := fun b => b;
  fetch := sc_fetch sc;
  spawnSync := fun _ path _ _ => sc_spawn sc path;
  requireSoljson := fun _ path => sc_require sc path;
  loadRemoteVersion := sc_remote sc;
  Metadata := jsstring;
  StringMap := unit;
  reformatMetadata := fun _ _ => ([], Ok (JObject [], lit "A.sol", lit "A"));
  compilerVersion := fun version => version
|}.

(** The world before a call: the given files, nothing logged, nothing
    requested. *)
Definition world (sc : Scenario) (files : list jsstring)
  : @World (platform sc) :=
  {| fs := files : @FS (platform sc); logged := []; requests := [] |}.

Definition notFound : outcome Soljson :=
  Throw (Foreign (lit "Error") (lit "solc not found")).

Definition connectionRefused : exn :=
  Foreign (lit "FetchError") (lit "connect ECONNREFUSED").

Definition unexpectedEnd : exn :=
  Foreign (lit "SyntaxError") (lit "Unexpected end of JSON input").

(** A compiler module that answers every input with the same text. *)
Definition constantSoljson (text : jsstring) : Soljson :=
  {| compile := fun _ => Ok text |}.

(** A parser that knows one text. *)
Definition parses (text : jsstring) (value : json) (s : jsstring)
  : outcome json :=
  if str_eqb s text then Ok value else Throw unexpectedEnd.

Definition version066 : jsstring := lit "0.6.6+commit.6c089d02".

Definition soljson066 : jsstring :=
  lit "/srv/soljson-repo/soljson-v0.6.6+commit.6c089d02.js".

Definition tmpSolc066 : jsstring :=
  lit "/tmp/solc-repo/solc-linux-amd64-v0.6.6+commit.6c089d02".

Definition repoSolc066 : jsstring :=
  lit "solc-repo/solc-linux-amd64-v0.6.6+commit.6c089d02".

(** The text that the compiler of a scenario emits. *)
Definition emitted : jsstring := lit "<standard-json output>".

(** A scenario without environment variables: every request settles to
    [net], every spawned compiler returns [spawned], the emitted text
    parses to [output], a compiler module that is on disk loads and emits
    that text, and the remote registry has no module. *)
Definition scenario (net : fetched) (spawned : outcome SpawnSyncReturns)
           (output : json) : Scenario :=
  {| sc_env := ∅;
     sc_fetch := fun _ => net;
     sc_spawn := fun _ => spawned;
     sc_parse := parses emitted output;
     sc_require := fun _ => Ok (constantSoljson emitted);
     sc_remote := fun _ => notFound |}.

(** The output for contract [A] of [A.sol] with bytecode [6001],
    deployed bytecode [6002] and metadata ["  {}  "]. *)
Definition artifacts : json :=
  JObject
    [(lit "contracts",
      JObject
        [(lit "A.sol",
          JObject
            [(lit "A",
              JObject
                [(lit "evm",
                  JObject
                    [(lit "bytecode",
                      JObject [(lit "object", JString (lit "6001"))]);
                     (lit "deployedBytecode",
                      JObject [(lit "object", JString (lit "6002"))])]);
                 (lit "metadata", JString (lit "  {}  "))])])])].

(** An output for another contract than the target, with no diagnostics:
    it has no [errors] property. *)
Definition otherContract : json :=
  JObject [(lit "contracts", JObject [(lit "B.sol", JObject [])])].

(** The same with an array of diagnostics. *)
Definition otherContractWithErrors : json :=
  JObject
    [(lit "contracts", JObject [(lit "B.sol", JObject [])]);
     (lit "errors",
      JArray
        [JObject [(lit "severity", JString (lit "warning"));
                  (lit "message", JString (lit "unused variable"))];
         JObject [(lit "severity", JString (lit "error"));
                  (lit "message", JString (lit "File not found"))]])].

(** A process that ran and wrote nothing to its standard output. *)
Definition silent : SpawnSyncReturns :=
  {| stdout := Some []; stderr := Some (lit "Segmentation fault");
     error := None |}.

(** A process that could not be started. *)
Definition notStarted : SpawnSyncReturns :=
  {| stdout := None; stderr := None;
     error := Some (Foreign (lit "Error") (lit "spawnSync EACCES")) |}.

(** A process that wrote the emitted text. *)
Definition wrote : SpawnSyncReturns :=
  {| stdout := Some emitted; stderr := Some []; error := None |}.

End Mock.

(** ** Checking an endpoint and reading deployed code

    [checkEndpoint] and [getBytecode] talk to an Ethereum node through
    web3 and to Infura through a POST request.  Both are taken as an
    interface of their own; what has been asked of them is kept in a
    trace. *)

Module Endpoint.

(** [s.includes(p)]: [p] occurs somewhere in [s]. *)
Fixpoint includes (s p : jsstring) : bool :=
  startsWith s p ||
  match s with
  | [] => false
  | _ :: s' => includes s' p
  end.

Class Web : Type := {
  (* a connected web3 instance; [new Web3(provider)] throws when it cannot
     tell what kind of provider the string names *)
  Web3 : Type;
  newWeb3 : jsstring -> outcome Web3;
  getNodeInfo : Web3 -> outcome jsstring;
  toChecksumAddress : Web3 -> jsstring -> outcome jsstring;
  getCode : Web3 -> jsstring -> outcome jsstring;
  (* fetch(uri, {method: "post", ...}) with the eth_blockNumber request *)
  post : jsstring -> fetched
}.

(** A call that left the process. *)
Inductive call : Type :=
| NodeInfo (provider : jsstring)
| Post (uri : jsstring)
| GetCode (address : jsstring).

Definition INFURA : jsstring := lit "https://mainnet.infura.io/v3/".

Definition CHECK_NODE : exn := Error (lit "Check your node").
Definition CHECK_INFURA : exn := Error (lit "Check your Infura ID").
Definition NO_PROVIDER : exn := Error (lit "No provider set").

Section Functions.
Context {W : Web}.

(** Checks if provided endpoint is online. *)
Definition checkEndpoint (provider : jsstring) (t : list call)
  : outcome unit * list call :=
  if includes provider (lit "http") then
    match newWeb3 provider with
    | Throw e => (Throw e, t)
    | Ok web3 =>
        match getNodeInfo web3 with
        | Ok _ => (Ok tt, t ++ [NodeInfo provider])
        | Throw _ => (Throw CHECK_NODE, t ++ [NodeInfo provider])
        end
    end
  else
    match provider with
    | _ :: _ =>
        let uri := INFURA ++ provider in
        match post uri with
        | Response status _ =>
            if bool_decide (status = 401)
            then (Throw CHECK_INFURA, t ++ [Post uri])
            else (Ok tt, t ++ [Post uri])
        | Rejected _ => (Throw CHECK_INFURA, t ++ [Post uri])
        end
    | [] => (Throw NO_PROVIDER, t)
    end.

(** Wraps eth_getCode. *)
Definition getBytecode (web3 : Web3) (address : jsstring) (t : list call)
  : outcome jsstring * list call :=
  match toChecksumAddress web3 address with
  | Throw e => (Throw e, t)
  | Ok address => (getCode web3 address, t ++ [GetCode address])
  end.

End Functions.

End Endpoint.
Export Endpoint.

(** ** Reading diagnostics without effects

    What [e.severity === "error"] and [e.message] give for a diagnostic
    that is not [null], where neither read can throw. *)

Module Diagnostics.

Definition hasErrorSeverity (e : json) : bool :=
  match ownPath e [lit "severity"] with
  | Some (JString s) => str_eqb s (lit "error")
  | _ => false
  end.

Definition messageOf {builtin : Type} (e : json) : jsvalue builtin :=
  match ownPath e [lit "message"] with
  | Some x => FromJson x
  | None => Undefined
  end.

End Diagnostics.
Export Diagnostics.

(** ** More scenarios *)

Module Cases.
Import Mock.

(** The compiler binary as it comes from the archive. *)
Definition binary : Buffer := [0x7F; 0x45; 0x4C; 0x46]%N.

(** The URI under which the archive has the binary of version 0.6.6. *)
Definition github066 : jsstring :=
  lit "https://github.com/ethereum/solc-bin/raw/gh-pages/linux-amd64/solc-linux-amd64-v0.6.6%2Bcommit.6c089d02".

(** A scenario in which the compiler module is only in the remote
    registry, or nowhere. *)
Definition remoteOnly (net : fetched) (remote : outcome Soljson)
           (output : json) : Scenario :=
  {| sc_env := ∅;
     sc_fetch := fun _ => net;
     sc_spawn := fun _ => Ok wrote;
     sc_parse := parses emitted output;
     sc_require := fun _ => notFound;
     sc_remote := fun _ => remote |}.

(** An entry for the target contract that has no [evm] property. *)
Definition withoutEvm : json :=
  JObject
    [(lit "contracts",
      JObject
        [(lit "A.sol",
          JObject [(lit "A", JObject [(lit "metadata", JString (lit "{}"))])])])].

(** An entry whose creation bytecode has no [object] property. *)
Definition withoutObject : json :=
  JObject
    [(lit "contracts",
      JObject
        [(lit "A.sol",
          JObject
            [(lit "A",
              JObject
                [(lit "evm",
                  JObject
                    [(lit "bytecode", JObject []);
                     (lit "deployedBytecode",
                      JObject [(lit "object", JString (lit "6002"))])]);
                 (lit "metadata", JString (lit "{}"))])])])].

(** An output whose diagnostics contain a [null]. *)
Definition nullDiagnostic : json :=
  JObject [(lit "errors", JArray [JObject []; JNull])].

(** A node and an Infura gateway for examples: the node answers when
    [nodeUp], and the gateway settles every request to [gateway]. *)
Definition web (nodeUp : bool) (gateway : fetched) : Web := {|
  Web3 := jsstring;
  newWeb3 := fun provider =>
    if startsWith provider (lit "http") then Ok provider
    else Throw (Error (lit "Can't autodetect provider"));
  getNodeInfo := fun _ =>
    if nodeUp then Ok (lit "Geth/v1.9.25")
    else Throw (Error (lit "Invalid JSON RPC response"));
  toChecksumAddress := fun _ address =>
    if bool_decide (length address = 42%nat) then Ok address
    else Throw (Error (lit "Given address is not a valid Ethereum address."));
  getCode := fun _ _ => Ok (lit "0x6001");
  post := fun _ => gateway
|}.

End Cases.

(** * Properties *)

(** ** Strings *)

Section StringFacts.

Lemma trimStart_split (s : jsstring) :
  exists ws, s = ws ++ trimStart s /\ forallb isWhiteSpace ws = true.
Proof.
  induction s as [|c s IH]; simpl.
  - exists []. auto.
  - destruct (isWhiteSpace c) eqn:Hc.
    + destruct IH as (ws & Hs & Hws).
      exists (c :: ws). simpl. rewrite Hc, Hws. split; [congruence | reflexivity].
    + exists []. auto.
Qed.

Lemma trimStart_head (s : jsstring) c r :
  trimStart s = c :: r -> isWhiteSpace c = false.
Proof.
  induction s as [|d s IH]; simpl; [discriminate|].
  destruct (isWhiteSpace d) eqn:Hd; [exact IH|].
  intros [= <- <-]. exact Hd.
Qed.

Lemma trimStart_fixed (s : jsstring) :
  match s with c :: _ => isWhiteSpace c = false | [] => True end ->
  trimStart s = s.
Proof. destruct s as [|c s]; simpl; [reflexivity|]. intros ->. reflexivity. Qed.

Lemma trimStart_idem (s : jsstring) : trimStart (trimStart s) = trimStart s.
Proof.
  apply trimStart_fixed. destruct (trimStart s) eqn:E; [exact I|].
  eapply trimStart_head, E.
Qed.

Lemma trimEnd_split (s : jsstring) :
  exists ws, s = trimEnd s ++ ws /\ forallb isWhiteSpace ws = true.
Proof.
  unfold trimEnd. destruct (trimStart_split (reverse s)) as (ws & Hs & Hws).
  exists (reverse ws). split.
  - rewrite <- reverse_app, <- Hs, reverse_involutive. reflexivity.
  - rewrite forallb_forall in *. intros x Hx. apply Hws.
    apply list_elem_of_In. apply list_elem_of_In in Hx.
    rewrite elem_of_reverse in Hx. exact Hx.
Qed.

Lemma trimEnd_last (s : jsstring) r c :
  trimEnd s = r ++ [c] -> isWhiteSpace c = false.
Proof.
  unfold trimEnd. intros H.
  apply (f_equal reverse) in H.
  rewrite reverse_involutive, reverse_app in H. simpl in H.
  eapply trimStart_head. exact H.
Qed.

Lemma startsWith_spec (s p : jsstring) :
  startsWith s p = true <-> exists r, s = p ++ r.
Proof.
  revert s. induction p as [|c p IH]; intros s; simpl.
  - split; [intros _; exists s; reflexivity | reflexivity].
  - destruct s as [|d s].
    + split; [discriminate | intros [r Hr]; discriminate].
    + rewrite andb_true_iff, bool_decide_eq_true, IH. split.
      * intros [-> [r ->]]. eauto.
      * intros [r [= -> ->]]. eauto.
Qed.

Lemma str_eqb_eq (a b : jsstring) : str_eqb a b = true <-> a = b.
Proof. unfold str_eqb. apply bool_decide_eq_true. Qed.

Lemma str_eqb_neq (a b : jsstring) : str_eqb a b = false <-> a <> b.
Proof. unfold str_eqb. apply bool_decide_eq_false. Qed.

Lemma trimStart_snoc (x : jsstring) c :
  isWhiteSpace c = false -> trimStart (x ++ [c]) = trimStart x ++ [c].
Proof.
  intros Hc. induction x as [|d x IH]; simpl.
  - rewrite Hc. reflexivity.
  - destruct (isWhiteSpace d); [exact IH | reflexivity].
Qed.

Lemma trimEnd_cons (s : jsstring) c :
  isWhiteSpace c = false -> trimEnd (c :: s) = c :: trimEnd s.
Proof.
  intros Hc. unfold trimEnd. rewrite reverse_cons, trimStart_snoc by exact Hc.
  rewrite reverse_app. reflexivity.
Qed.

Lemma trimEnd_idem (s : jsstring) : trimEnd (trimEnd s) = trimEnd s.
Proof. unfold trimEnd. rewrite reverse_involutive, trimStart_idem. reflexivity. Qed.

(** The result of [trim] is either empty or begins with a code unit that
    is not white space. *)
Lemma trim_head (s : jsstring) c r : trim s = c :: r -> isWhiteSpace c = false.
Proof.
  unfold trim. destruct (trimStart s) as [|d x] eqn:E.
  - discriminate.
  - pose proof (trimStart_head _ _ _ E) as Hd.
    rewrite trimEnd_cons by exact Hd. intros [= <- _]. exact Hd.
Qed.

Lemma trim_last (s : jsstring) r c : trim s = r ++ [c] -> isWhiteSpace c = false.
Proof. unfold trim. apply trimEnd_last. Qed.

Lemma trim_split (s : jsstring) :
  exists l r,
    s = l ++ trim s ++ r /\
    forallb isWhiteSpace l = true /\ forallb isWhiteSpace r = true.
Proof.
  destruct (trimStart_split s) as (l & Hl & Hlw).
  destruct (trimEnd_split (trimStart s)) as (r & Hr & Hrw).
  exists l, r. unfold trim. rewrite <- Hr. auto.
Qed.

Lemma trim_idem (s : jsstring) : trim (trim s) = trim s.
Proof.
  unfold trim at 1. rewrite trimStart_fixed.
  - unfold trim. apply trimEnd_idem.
  - destruct (trim s) as [|c r] eqn:E; [exact I|]. eapply trim_head, E.
Qed.

(** A string that [trim] produced, with a code unit that is not white
    space put in front, is left alone by [trim]. *)
Lemma trim_cons_trimmed (s : jsstring) c :
  isWhiteSpace c = false -> trim (c :: trim s) = c :: trim s.
Proof.
  intros Hc. unfold trim at 1. simpl. rewrite Hc.
  rewrite trimEnd_cons by exact Hc. f_equal.
  unfold trim. apply trimEnd_idem.
Qed.

End StringFacts.

(** ** Canonical compiler versions *)

Section Canonical.

(** C9.  [getSolcJs] first trims the version it is given: the trimmed
    value is the input without the white space at its two ends.  When the
    trimmed value is ["latest"] it is used unchanged; otherwise a value that
    does not start with [v] gets a [v] in front, and a value that starts
    with [v] is used as it is. *)
Theorem canonicalVersion_spec (raw : jsstring) :
  (exists l r,
      raw = l ++ trim raw ++ r /\
      forallb isWhiteSpace l = true /\ forallb isWhiteSpace r = true /\
      (forall c s, trim raw = c :: s -> isWhiteSpace c = false) /\
      (forall s c, trim raw = s ++ [c] -> isWhiteSpace c = false)) /\
  (trim raw = lit "latest" -> canonicalVersion raw = lit "latest") /\
  (trim raw <> lit "latest" ->
   (forall r, trim raw <> lit "v" ++ r) ->
   canonicalVersion raw = lit "v" ++ trim raw) /\
  (trim raw <> lit "latest" ->
   (exists r, trim raw = lit "v" ++ r) ->
   canonicalVersion raw = trim raw).
Proof.
  split; [|split; [|split]].
  - destruct (trim_split raw) as (l & r & H & Hl & Hr).
    exists l, r. repeat split; auto.
    + intros c s. apply trim_head.
    + intros s c. apply trim_last.
  - intros H. unfold canonicalVersion. rewrite H. reflexivity.
  - intros Hl Hv. unfold canonicalVersion.
    apply str_eqb_neq in Hl. rewrite Hl. simpl negb at 1.
    destruct (startsWith (trim raw) (lit "v")) eqn:E; [|reflexivity].
    apply startsWith_spec in E. destruct E as [r E]. destruct (Hv r E).
  - intros Hl Hv. unfold canonicalVersion.
    apply startsWith_spec in Hv. rewrite Hv, andb_false_r. reflexivity.
Qed.

Lemma canonicalVersion_spec_witness :
  canonicalVersion (lit " latest ") = lit "latest" /\
  canonicalVersion (lit "  0.6.6+commit.6c089d02 ") = lit "v0.6.6+commit.6c089d02" /\
  canonicalVersion (lit "v0.6.6+commit.6c089d02 ") = lit "v0.6.6+commit.6c089d02".
Proof.
  split; [|split].
  - apply (proj1 (proj2 (canonicalVersion_spec (lit " latest ")))).
    reflexivity.
  - apply (proj1 (proj2 (proj2
             (canonicalVersion_spec (lit "  0.6.6+commit.6c089d02 "))))).
    + discriminate.
    + intros r. discriminate.
  - apply (proj2 (proj2 (proj2
             (canonicalVersion_spec (lit "v0.6.6+commit.6c089d02 "))))).
    + discriminate.
    + exists (lit "0.6.6+commit.6c089d02"). reflexivity.
Defined.

(** X1.  Canonicalization is idempotent: the canonical version of a
    canonical version is that version. *)
Lemma canonicalVersion_idempotent (raw : jsstring) :
  canonicalVersion (canonicalVersion raw) = canonicalVersion raw.
Proof.
  unfold canonicalVersion at 2 3.
  destruct (str_eqb (trim raw) (lit "latest")) eqn:El; cbn [negb andb].
  - apply str_eqb_eq in El. rewrite El. reflexivity.
  - destruct (startsWith (trim raw) (lit "v")) eqn:Ev; cbn [negb andb].
    + unfold canonicalVersion. rewrite trim_idem, El, Ev. reflexivity.
    + unfold canonicalVersion.
      change (lit "v" ++ trim raw) with (118%N :: trim raw).
      rewrite trim_cons_trimmed by reflexivity. reflexivity.
Qed.

End Canonical.

(** ** Stripping the metadata *)

Section StripMetadata.

Lemma hexDigit_range (c : N) (v : Z) :
  hexDigit c = Some v -> 0 <= v < 16 /\ (0x30 <= c <= 0x66)%N.
Proof.
  unfold hexDigit.
  repeat match goal with
         | |- context [(?a <=? ?b)%N] => destruct (N.leb_spec a b)
         end; simpl; intros [= <-]; lia.
Qed.

Lemma isWhiteSpace_above_space (c : N) :
  (0x30 <= c <= 0x66)%N -> isWhiteSpace c = false.
Proof.
  intros Hc. unfold isWhiteSpace, whiteSpaceCodes. simpl existsb.
  repeat match goal with
         | |- context [(c =? ?k)%N] => destruct (N.eqb_spec c k); [lia|]
         end.
  destruct (N.leb_spec 0x2000 c); [lia | reflexivity].
Qed.

Lemma hexDigit_not_whiteSpace (c : N) (v : Z) :
  hexDigit c = Some v -> isWhiteSpace c = false.
Proof. intros H. apply isWhiteSpace_above_space, (hexDigit_range c v H). Qed.

(** Four hexadecimal digits are read by [parseInt] as the big-endian
    number they write. *)
Lemma parseInt16_four_digits (h1 h2 h3 h4 : N) (v1 v2 v3 v4 : Z) :
  hexDigit h1 = Some v1 -> hexDigit h2 = Some v2 ->
  hexDigit h3 = Some v3 -> hexDigit h4 = Some v4 ->
  parseInt16 [h1; h2; h3; h4] = Num (4096 * v1 + 256 * v2 + 16 * v3 + v4).
Proof.
  intros H1 H2 H3 H4. unfold parseInt16.
  rewrite trimStart_fixed by (eapply hexDigit_not_whiteSpace; eauto).
  pose proof (hexDigit_range _ _ H1) as [_ R1].
  pose proof (hexDigit_range _ _ H2) as [_ R2].
  assert (stripSign [h1; h2; h3; h4] = (1, [h1; h2; h3; h4])) as ->.
  { unfold stripSign.
    destruct (decide (h1 = 0x2D%N)) as [->|]; [vm_compute in H1; discriminate|].
    destruct (decide (h1 = 0x2B%N)) as [->|]; [vm_compute in H1; discriminate|].
    destruct h1 as [|p]; [reflexivity|].
    do 6 (try destruct p as [p|p|]); try reflexivity; congruence. }
  assert (stripHexPrefix [h1; h2; h3; h4] = [h1; h2; h3; h4]) as ->.
  { unfold stripHexPrefix.
    destruct (decide (h2 = 0x78%N)) as [->|]; [vm_compute in H2; discriminate|].
    destruct (decide (h2 = 0x58%N)) as [->|]; [vm_compute in H2; discriminate|].
    destruct h1 as [|p]; [reflexivity|].
    do 6 (try destruct p as [p|p|]); try reflexivity.
    destruct h2 as [|q]; [reflexivity|].
    do 7 (try destruct q as [q|q|]); try reflexivity; congruence. }
  simpl. rewrite H1, H2, H3, H4. unfold hexValue. simpl. f_equal. lia.
Qed.

Lemma slice_last_four (body tail : jsstring) :
  length tail = 4%nat -> slice (body ++ tail) (Num (-4)) None = tail.
Proof.
  intros Ht. unfold slice, relativeIndex. simpl ToIntegerOrInfinity.
  rewrite length_app, Ht.
  change (-4 <? 0) with true. cbv iota.
  replace (Z.max (Z.of_nat (length body + 4) + -4) 0)
    with (Z.of_nat (length body)) by lia.
  destruct (Z.leb_spec (Z.of_nat (length body + 4)) (Z.of_nat (length body)));
    [lia|].
  rewrite Nat2Z.id, drop_app_length.
  apply take_ge. lia.
Qed.

(** A slice that starts at 0 is a prefix, wherever it ends. *)
Lemma slice_from_start (s : jsstring) (e : number) :
  exists k : nat, slice s (Num 0) (Some e) = take k s /\
    Z.of_nat k = Z.max 0 (relativeIndex (Z.of_nat (length s)) (ToIntegerOrInfinity e)).
Proof.
  unfold slice. simpl ToIntegerOrInfinity.
  set (len := Z.of_nat (length s)).
  set (to := relativeIndex len (ToIntegerOrInfinity e)).
  assert (relativeIndex len 0 = 0) as ->.
  { unfold relativeIndex. simpl. lia. }
  destruct (Z.leb_spec to 0).
  - exists 0%nat. rewrite take_0. split; [reflexivity | lia].
  - exists (Z.to_nat (to - 0)). rewrite drop_0. split; [reflexivity | lia].
Qed.

(** C5.  When the bytecode ends in four hexadecimal digits that write
    the 16-bit big-endian number [n], and it has at least [2n + 4]
    characters, the result is the bytecode without its last [2n + 4]
    characters; its length is the length of the input minus [2n + 4]. *)
Theorem getBytecodeWithoutMetadata_strips
        (body : jsstring) (h1 h2 h3 h4 : N) (v1 v2 v3 v4 : Z) :
  hexDigit h1 = Some v1 -> hexDigit h2 = Some v2 ->
  hexDigit h3 = Some v3 -> hexDigit h4 = Some v4 ->
  let bytecode := body ++ [h1; h2; h3; h4] in
  let n := 4096 * v1 + 256 * v2 + 16 * v3 + v4 in
  2 * n + 4 <= Z.of_nat (length bytecode) ->
  0 <= n < 65536 /\
  metadataSize bytecode = Num (2 * n + 4) /\
  Z.of_nat (length (getBytecodeWithoutMetadata bytecode))
  = Z.of_nat (length bytecode) - (2 * n + 4) /\
  exists tail,
    bytecode = getBytecodeWithoutMetadata bytecode ++ tail /\
    Z.of_nat (length tail) = 2 * n + 4.
Proof.
  intros H1 H2 H3 H4 bytecode n Hlen.
  pose proof (hexDigit_range _ _ H1) as [B1 _].
  pose proof (hexDigit_range _ _ H2) as [B2 _].
  pose proof (hexDigit_range _ _ H3) as [B3 _].
  pose proof (hexDigit_range _ _ H4) as [B4 _].
  assert (Hn : 0 <= n < 65536) by (subst n; lia).
  assert (Hsize : metadataSize bytecode = Num (2 * n + 4)).
  { unfold metadataSize, bytecode.
    rewrite slice_last_four by reflexivity.
    rewrite (parseInt16_four_digits _ _ _ _ _ _ _ _ H1 H2 H3 H4).
    simpl. fold n. f_equal. lia. }
  destruct (slice_from_start bytecode
              (sub (Num (Z.of_nat (length bytecode))) (metadataSize bytecode)))
    as (k & Hk & Hkz).
  fold (getBytecodeWithoutMetadata bytecode) in Hk.
  rewrite Hsize in Hkz. simpl in Hkz. unfold relativeIndex in Hkz.
  destruct (Z.ltb_spec (Z.of_nat (length bytecode) - (2 * n + 4)) 0); [lia|].
  assert (Hk' : Z.of_nat k = Z.of_nat (length bytecode) - (2 * n + 4)) by lia.
  split; [exact Hn|]. split; [exact Hsize|].
  rewrite Hk. split.
  - rewrite length_take. lia.
  - exists (drop k bytecode). split.
    + symmetry. apply take_drop.
    + rewrite length_drop. lia.
Qed.

Lemma getBytecodeWithoutMetadata_strips_witness :
  getBytecodeWithoutMetadata (lit "60016002a2646970667358fe0003")
  = lit "60016002a264697066" /\
  metadataSize (lit "60016002a2646970667358fe0003") = Num 10.
Proof.
  destruct (getBytecodeWithoutMetadata_strips
              (lit "60016002a2646970667358fe") 0x30 0x30 0x30 0x33 0 0 0 3
              eq_refl eq_refl eq_refl eq_refl)
    as (_ & Hsize & _ & _).
  - vm_compute. discriminate.
  - split; [reflexivity | exact Hsize].
Defined.

(** Without a hexadecimal digit among its characters a string is not a
    number for [parseInt]. *)
Lemma parseInt16_no_digit (t : jsstring) :
  Forall (fun c => hexDigit c = None) t -> parseInt16 t = NaN.
Proof.
  intros Hall. unfold parseInt16.
  assert (Htrim : Forall (fun c => hexDigit c = None) (trimStart t)).
  { induction Hall as [|c t Hc Hall IH]; simpl; [constructor|].
    destruct (isWhiteSpace c); [exact IH | constructor; assumption]. }
  assert (Hlead : forall x, Forall (fun c => hexDigit c = None) x ->
                            leadingHexDigits (stripHexPrefix x) = []).
  { intros x Hx. destruct Hx as [|d x Hd Hx]; [reflexivity|].
    assert (d <> 0x30%N) by (intros ->; vm_compute in Hd; discriminate).
    assert (stripHexPrefix (d :: x) = d :: x) as ->.
    { unfold stripHexPrefix. destruct d as [|q]; [reflexivity|].
      do 6 (try destruct q as [q|q|]); try reflexivity; congruence. }
    simpl. rewrite Hd. reflexivity. }
  destruct (trimStart t) as [|c u]; [reflexivity|].
  apply Forall_cons in Htrim as [Hc Hu].
  unfold stripSign.
  destruct (decide (c = 0x2D%N)) as [->|].
  { rewrite (Hlead u Hu). reflexivity. }
  destruct (decide (c = 0x2B%N)) as [->|].
  { rewrite (Hlead u Hu). reflexivity. }
  assert ((match c with
           | 0x2D%N => (-1, u) | 0x2B%N => (1, u) | _ => (1, c :: u)
           end) = (1, c :: u)) as ->.
  { destruct c as [|q]; [reflexivity|].
    do 6 (try destruct q as [q|q|]); try reflexivity; congruence. }
  rewrite (Hlead (c :: u)) by (constructor; assumption). reflexivity.
Qed.

(** C10, as the code has it.  The result is always a prefix of the
    input.  When [parseInt] finds no hexadecimal digit where it starts to
    read the last four characters (after white space, a sign and a [0x]
    prefix) the computed size is NaN and the result is empty; this is the
    case in particular when none of the last four characters is a
    hexadecimal digit.  When the input is shorter than the computed size
    [m], the end of the slice is negative and counts from the end of the
    input: the result is the prefix of length [max (2 * length - m) 0]. *)
Theorem getBytecodeWithoutMetadata_prefix (bytecode : jsstring) :
  getBytecodeWithoutMetadata bytecode `prefix_of` bytecode /\
  (parseInt16 (slice bytecode (Num (-4)) None) = NaN ->
   metadataSize bytecode = NaN /\ getBytecodeWithoutMetadata bytecode = []) /\
  (Forall (fun c => hexDigit c = None) (slice bytecode (Num (-4)) None) ->
   metadataSize bytecode = NaN /\ getBytecodeWithoutMetadata bytecode = []) /\
  (forall m,
      metadataSize bytecode = Num m ->
      Z.of_nat (length bytecode) < m ->
      getBytecodeWithoutMetadata bytecode
      = take (Z.to_nat (Z.max (2 * Z.of_nat (length bytecode) - m) 0)) bytecode).
Proof.
  assert (Hnan : parseInt16 (slice bytecode (Num (-4)) None) = NaN ->
                 metadataSize bytecode = NaN /\
                 getBytecodeWithoutMetadata bytecode = []).
  { intros H. unfold getBytecodeWithoutMetadata, metadataSize. rewrite H.
    split; [reflexivity|]. simpl. unfold slice, relativeIndex. simpl.
    destruct (Z.leb_spec (Z.min 0 (Z.of_nat (length bytecode)))
                         (Z.min 0 (Z.of_nat (length bytecode))));
      [reflexivity | lia]. }
  split; [|split; [exact Hnan|split]].
  - destruct (slice_from_start bytecode
                (sub (Num (Z.of_nat (length bytecode))) (metadataSize bytecode)))
      as (k & Hk & _).
    unfold getBytecodeWithoutMetadata. rewrite Hk. apply prefix_take.
  - intros Hall. apply Hnan, parseInt16_no_digit, Hall.
  - intros m Hm Hshort.
    destruct (slice_from_start bytecode
                (sub (Num (Z.of_nat (length bytecode))) (metadataSize bytecode)))
      as (k & Hk & Hkz).
    unfold getBytecodeWithoutMetadata. rewrite Hk. f_equal.
    rewrite Hm in Hkz. simpl in Hkz. unfold relativeIndex in Hkz.
    destruct (Z.ltb_spec (Z.of_nat (length bytecode) - m) 0); lia.
Qed.

Lemma getBytecodeWithoutMetadata_prefix_witness :
  getBytecodeWithoutMetadata (lit "6001zzzz") = [] /\
  getBytecodeWithoutMetadata (lit "6001zy-+") = [] /\
  getBytecodeWithoutMetadata (lit "6001600004") = lit "60016000".
Proof.
  split; [|split].
  - apply (proj1 (proj2 (getBytecodeWithoutMetadata_prefix (lit "6001zzzz")))).
    reflexivity.
  - apply (proj1 (proj2 (proj2
             (getBytecodeWithoutMetadata_prefix (lit "6001zy-+"))))).
    repeat constructor.
  - refine (eq_trans
              (proj2 (proj2 (proj2 (getBytecodeWithoutMetadata_prefix
                                      (lit "6001600004")))) 12 _ _) _).
    + reflexivity.
    + reflexivity.
    + reflexivity.
Defined.

(** C10, as the claim puts it, fails: the last four characters [01zz]
    are not a hexadecimal number, yet [parseInt] reads their leading digits
    as 1, the computed size is 6 and not NaN, and the result is not
    empty. *)
Lemma getBytecodeWithoutMetadata_partial_hex_tail :
  let bytecode := lit "aaaaaaaaaaaa01zz" in
  slice bytecode (Num (-4)) None = lit "01zz" /\
  hexDigit 0x7A = None /\
  metadataSize bytecode = Num 6 /\
  metadataSize bytecode <> NaN /\
  getBytecodeWithoutMetadata bytecode = lit "aaaaaaaaaa" /\
  getBytecodeWithoutMetadata bytecode <> [].
Proof. vm_compute. repeat split; discriminate. Qed.

End StripMetadata.

(** ** Immutable-caused differences *)

Section Immutables.

(** With two non-empty strings the result is a boolean: whether the
    lengths agree and the strings differ. *)
Lemma probablyImmutables_nonempty (a b : jsstring) :
  a <> [] -> b <> [] ->
  probablyImmutables a b
  = VBoolean (bool_decide (length a = length b) && negb (str_eqb a b)).
Proof.
  intros Ha Hb. unfold probablyImmutables.
  destruct a as [|x a]; [congruence|]. destruct b as [|y b]; [congruence|].
  generalize (bool_decide (length (x :: a) = length (y :: b))).
  generalize (negb (str_eqb (x :: a) (y :: b))).
  intros n [|]; reflexivity.
Qed.

(** X6.  Read as a condition, the result is true exactly for two
    non-empty strings of the same length that differ. *)
Lemma probablyImmutables_truthy (a b : jsstring) :
  truthy (probablyImmutables a b) = true <->
  a <> [] /\ b <> [] /\ length a = length b /\ a <> b.
Proof.
  destruct a as [|x a].
  { simpl. split; [discriminate | intros [H _]; congruence]. }
  destruct b as [|y b].
  { simpl. split; [discriminate | intros (_ & H & _); congruence]. }
  rewrite probablyImmutables_nonempty by discriminate.
  simpl truthy. rewrite andb_true_iff, bool_decide_eq_true, negb_true_iff.
  rewrite str_eqb_neq. split.
  - intros [Hl Hn]. repeat split; auto; discriminate.
  - intros (_ & _ & Hl & Hn). auto.
Qed.

(** For two equal strings, or two strings of different lengths, that
    are not empty the result is [false]; for two distinct non-empty strings
    of the same length it is [true]. *)
Lemma probablyImmutables_boolean_cases (a b : jsstring) :
  a <> [] -> b <> [] ->
  (a = b -> probablyImmutables a b = VBoolean false) /\
  (length a <> length b -> probablyImmutables a b = VBoolean false) /\
  (length a = length b -> a <> b -> probablyImmutables a b = VBoolean true).
Proof.
  intros Ha Hb. rewrite probablyImmutables_nonempty by assumption.
  repeat split.
  - intros ->. rewrite (proj2 (str_eqb_eq b b) eq_refl), andb_false_r.
    reflexivity.
  - intros Hl. rewrite (bool_decide_eq_false_2 _ Hl). reflexivity.
  - intros Hl Hn. rewrite (bool_decide_eq_true_2 _ Hl).
    apply str_eqb_neq in Hn. rewrite Hn. reflexivity.
Qed.

(** C6 at an empty first argument: the conjunction stops at the empty
    string and returns it, so the value is [""] and not [false]; the same
    happens when only the second argument is empty. *)
Theorem probablyImmutables_empty_operand :
  probablyImmutables [] (lit "6001") = VString [] /\
  probablyImmutables (lit "6001") [] = VString [] /\
  probablyImmutables [] [] = VString [] /\
  probablyImmutables [] (lit "6001") <> VBoolean false.
Proof. repeat split; discriminate. Qed.

End Immutables.

(** ** The name of the native binary *)

Section FileName.

(** The name is the fixed prefix followed by the version as given. *)
Lemma solcFileName_prefix (version : jsstring) :
  solcFileName version = lit "solc-linux-amd64-v" ++ version.
Proof. reflexivity. Qed.

(** C3 at a version written with its leading [v]: the binary's name gets
    a second [v], while the name of the compiler module, built by
    [getSolcJs] from the same version, has one. *)
Theorem solcFileName_duplicates_v :
  solcFileName (lit "v0.6.6+commit.6c089d02")
  = lit "solc-linux-amd64-vv0.6.6+commit.6c089d02" /\
  solcFileName (lit "v0.6.6+commit.6c089d02")
  <> lit "solc-linux-amd64-v0.6.6+commit.6c089d02" /\
  lit "soljson-" ++ canonicalVersion (lit "v0.6.6+commit.6c089d02") ++ lit ".js"
  = lit "soljson-v0.6.6+commit.6c089d02.js".
Proof. repeat split; vm_compute; discriminate. Qed.

End FileName.

(** ** Locating the native binary *)

Section Locator.
Context {P : Platform}.

Lemma firstExisting_found (repoPath : jsstring) rest fileName (w : World) :
  existsSync (fs w) (Path_join repoPath fileName) = true ->
  firstExisting (repoPath :: rest) fileName w
  = (Ok (Some (Path_join repoPath fileName)), w).
Proof.
  intros H. simpl. unfold bind, fs_existsSync. rewrite H. reflexivity.
Qed.

Lemma firstExisting_skip (repoPath : jsstring) rest fileName (w : World) :
  existsSync (fs w) (Path_join repoPath fileName) = false ->
  firstExisting (repoPath :: rest) fileName w = firstExisting rest fileName w.
Proof.
  intros H. simpl. unfold bind, fs_existsSync. rewrite H. reflexivity.
Qed.

(** C7.  When the binary of the requested version is in the
    temporary-download directory, its path there is returned and the world
    is as it was: no request has been made (and nothing was logged or
    written).  The temporary-download directory is looked at first: the
    configured repository is used only when the file is not found there,
    and then also without a request. *)
Theorem getSolcExecutable_local_first (version : jsstring) (w : World) :
  (existsSync (fs w) (Path_join tmpSolcRepo (solcFileName version)) = true ->
   getSolcExecutable version w
   = (Ok (Some (Path_join tmpSolcRepo (solcFileName version))), w) /\
   requests (getSolcExecutable version w).2 = requests w) /\
  (existsSync (fs w) (Path_join tmpSolcRepo (solcFileName version)) = false ->
   existsSync (fs w) (Path_join solcRepo (solcFileName version)) = true ->
   getSolcExecutable version w
   = (Ok (Some (Path_join solcRepo (solcFileName version))), w) /\
   requests (getSolcExecutable version w).2 = requests w).
Proof.
  split.
  - intros Ht.
    assert (E : getSolcExecutable version w
                = (Ok (Some (Path_join tmpSolcRepo (solcFileName version))), w)).
    { unfold getSolcExecutable, bind.
      rewrite firstExisting_found by exact Ht. reflexivity. }
    rewrite E. split; reflexivity.
  - intros Ht Hp.
    assert (E : getSolcExecutable version w
                = (Ok (Some (Path_join solcRepo (solcFileName version))), w)).
    { unfold getSolcExecutable, bind.
      rewrite firstExisting_skip by exact Ht.
      rewrite firstExisting_found by exact Hp. reflexivity. }
    rewrite E. split; reflexivity.
Qed.

(** With the binary in neither directory the locator turns to the
    network; when the request is rejected, the rejection is what the locator
    throws. *)
Lemma getSolcExecutable_fetch_rejected
      (version : jsstring) (w : World) (encoded : jsstring) (reason : exn) :
  existsSync (fs w) (Path_join tmpSolcRepo (solcFileName version)) = false ->
  existsSync (fs w) (Path_join solcRepo (solcFileName version)) = false ->
  encodeURIComponent (solcFileName version) = Ok encoded ->
  fetch (GITHUB_SOLC_REPO ++ encoded) = Rejected reason ->
  exists w',
    getSolcExecutable version w = (Throw reason, w') /\
    requests w' = requests w ++ [GITHUB_SOLC_REPO ++ encoded] /\
    map msg (logged w')
    = map msg (logged w)
      ++ [Some (Text (lit "Fetching executable solc from GitHub"))].
Proof.
  intros Ht Hp He Hf. eexists. split.
  - unfold getSolcExecutable, bind.
    rewrite firstExisting_skip by exact Ht.
    rewrite firstExisting_skip by exact Hp.
    simpl firstExisting. unfold ret at 1.
    unfold fetchSolcFromGitHub, bind, lift. rewrite He.
    unfold log, await_fetch. rewrite Hf. reflexivity.
  - split; [reflexivity|]. simpl. rewrite map_app. reflexivity.
Qed.

(** A response with another status than 200 is logged as a failure and
    the locator returns [null], which sends [useCompiler] to [getSolcJs]. *)
Lemma getSolcExecutable_not_ok
      (version : jsstring) (w : World) (encoded : jsstring)
      (status : Z) (body : outcome Buffer) :
  existsSync (fs w) (Path_join tmpSolcRepo (solcFileName version)) = false ->
  existsSync (fs w) (Path_join solcRepo (solcFileName version)) = false ->
  encodeURIComponent (solcFileName version) = Ok encoded ->
  fetch (GITHUB_SOLC_REPO ++ encoded) = Response status body ->
  status <> StatusCodes_OK ->
  exists w',
    getSolcExecutable version w = (Ok None, w') /\
    fs w' = fs w /\
    map msg (logged w')
    = map msg (logged w)
      ++ [Some (Text (lit "Fetching executable solc from GitHub"));
          Some (Text (lit "Failed fetching executable solc from GitHub"))].
Proof.
  intros Ht Hp He Hf Hs. eexists. split.
  - unfold getSolcExecutable, bind.
    rewrite firstExisting_skip by exact Ht.
    rewrite firstExisting_skip by exact Hp.
    simpl firstExisting. unfold ret at 1.
    unfold fetchSolcFromGitHub, bind, lift. rewrite He.
    unfold log, await_fetch. rewrite Hf. cbn [fst].
    rewrite (bool_decide_eq_false_2 _ Hs). reflexivity.
  - split; [reflexivity|]. simpl. rewrite !map_app, <- app_assoc. reflexivity.
Qed.

(** The compiler module is looked for under the canonical version: on
    disk as [soljson-<canonical version>.js] in the module repository, and
    otherwise in the remote registry, whose failure is what [getSolcJs]
    throws. *)
Lemma getSolcJs_canonical (version : option jsstring) (w : World) :
  let canonical := canonicalVersion (default (lit "latest") version) in
  let soljsonPath :=
    Path_resolve (envOr (lit "SOLJSON_REPO") (lit "soljson-repo"))
                 (lit "soljson-" ++ canonical ++ lit ".js") in
  (existsSync (fs w) soljsonPath = true ->
   (getSolcJs version w).1 = requireSoljson (fs w) soljsonPath) /\
  (existsSync (fs w) soljsonPath = false ->
   (getSolcJs version w).1 = loadRemoteVersion canonical).
Proof.
  intros canonical soljsonPath. split; intros H.
  - unfold getSolcJs, bind, log, fs_existsSync. cbn [fs addLogs].
    fold canonical. fold soljsonPath. rewrite H. reflexivity.
  - unfold getSolcJs, bind, log, fs_existsSync. cbn [fs addLogs].
    fold canonical. fold soljsonPath. rewrite H.
    destruct (loadRemoteVersion canonical); reflexivity.
Qed.

End Locator.

(** ** Invoking the compiler *)

Section Invoker.
Context {P : Platform}.

(** What the locator throws, [useCompiler] throws. *)
Lemma useCompiler_locator_throws
      (version : jsstring) (input : json) (w w' : World) (e : exn) :
  getSolcExecutable version w = (Throw e, w') ->
  useCompiler version input w = (Throw e, w').
Proof. intros H. unfold useCompiler, bind. rewrite H. reflexivity. Qed.

(** C4, as the code has it.  When the spawned compiler's result has no
    standard-output buffer ([stdout] is [null], as when the process could
    not be started), [useCompiler] throws an error whose message is
    "Recompilation error"; before that it logs, at level error, the spawn
    error, or the text "Recompilation error" when there is none. *)
Theorem useCompiler_no_stdout
        (version : jsstring) (input : json) (w w1 : World)
        (c : N) (p : jsstring) (r : SpawnSyncReturns) :
  getSolcExecutable version w = (Ok (Some (c :: p)), w1) ->
  spawnSync (fs w1) (c :: p) [lit "--standard-json"] (JSON_stringify input)
  = Ok r ->
  stdout r = None ->
  exists w2,
    useCompiler version input w = (Throw (Error (lit "Recompilation error")), w2) /\
    map (fun l => (lvl l, msg l)) (logged w2)
    = map (fun l => (lvl l, msg l)) (logged w1)
      ++ [(INFO, Some (Text (lit "Compiling with external executable")));
          (ERROR, Some match error r with
                       | Some e => Err e
                       | None => Text (lit "Recompilation error")
                       end)].
Proof.
  intros Hloc Hspawn Hout. eexists. split.
  - unfold useCompiler, bind. rewrite Hloc. unfold log. simpl fs.
    rewrite Hspawn, Hout. reflexivity.
  - simpl. rewrite !map_app, <- app_assoc. reflexivity.
Qed.

(** A buffer on standard output, of whatever length, is what
    [useCompiler] returns as text. *)
Lemma useCompiler_stdout
      (version : jsstring) (input : json) (w w1 : World)
      (c : N) (p : jsstring) (r : SpawnSyncReturns) (out : Buffer) :
  getSolcExecutable version w = (Ok (Some (c :: p)), w1) ->
  spawnSync (fs w1) (c :: p) [lit "--standard-json"] (JSON_stringify input)
  = Ok r ->
  stdout r = Some out ->
  (useCompiler version input w).1 = Ok (Buffer_toString out).
Proof.
  intros Hloc Hspawn Hout.
  unfold useCompiler, bind. rewrite Hloc. unfold log. simpl fs.
  rewrite Hspawn, Hout. reflexivity.
Qed.

End Invoker.

(** ** Extracting the artifacts *)

Section Extractor.
Context {P : Platform}.

Lemma ownPath_cons (j : json) (k : jsstring) rest (x : json) :
  ownPath j (k :: rest) = Some x ->
  exists props y,
    j = JObject props /\ ownProperty props k = Some y /\
    ownPath y rest = Some x.
Proof.
  simpl. destruct j as [| | | | |props]; try discriminate.
  destruct (ownProperty props k) as [y|] eqn:E; [|discriminate].
  intros H. eauto.
Qed.

(** An own property answers both kinds of property read. *)
Lemma getField_own (props : list (jsstring * json)) (k : jsstring) (y : json) :
  ownProperty props k = Some y ->
  getField (FromJson (JObject props)) k = Ok (FromJson y).
Proof. intros H. simpl. rewrite H. reflexivity. Qed.

Lemma getComputed_own (props : list (jsstring * json)) (k : jsstring) (y : json) :
  ownProperty props k = Some y ->
  getComputed (FromJson (JObject props)) k = Ok (FromJson y).
Proof. intros H. simpl. rewrite H. reflexivity. Qed.

Lemma hexOf_own (contract : json) (kind code : jsstring) :
  ownPath contract [lit "evm"; kind; lit "object"] = Some (JString code) ->
  hexOf (FromJson contract) kind = Ok (lit "0x" ++ code).
Proof.
  intros H.
  apply ownPath_cons in H as (f1 & evm & -> & H1 & H).
  apply ownPath_cons in H as (f2 & bc & -> & H2 & H).
  apply ownPath_cons in H as (f3 & ob & -> & H3 & H).
  simpl in H. injection H as ->.
  unfold hexOf. rewrite (getField_own _ _ _ H1). cbn [obind].
  rewrite (getField_own _ _ _ H2). cbn [obind].
  rewrite (getField_own _ _ _ H3). reflexivity.
Qed.

(** An output that has the three artifacts of the target contract as
    strings passes the check and yields them. *)
Lemma extract_artifacts
      (version : jsstring) (output : json) (fileName contractName : jsstring)
      (b d md : jsstring) (w : World) :
  ownPath output [lit "contracts"; fileName; contractName;
                  lit "evm"; lit "bytecode"; lit "object"] = Some (JString b) ->
  ownPath output [lit "contracts"; fileName; contractName;
                  lit "evm"; lit "deployedBytecode"; lit "object"]
  = Some (JString d) ->
  ownPath output [lit "contracts"; fileName; contractName; lit "metadata"]
  = Some (JString md) ->
  extract version output fileName contractName w
  = (Ok {| bytecode := lit "0x" ++ b; deployedBytecode := lit "0x" ++ d;
           metadata := trim md |}, w).
Proof.
  intros Hb Hd Hm.
  apply ownPath_cons in Hb as (f0 & contracts & -> & H0 & Hb).
  apply ownPath_cons in Hd as (f0' & contracts' & [= <-] & H0' & Hd).
  apply ownPath_cons in Hm as (f0'' & contracts'' & [= <-] & H0'' & Hm).
  rewrite H0 in H0', H0''. injection H0' as <-. injection H0'' as <-.
  apply ownPath_cons in Hb as (f1 & file & -> & H1 & Hb).
  apply ownPath_cons in Hd as (f1' & file' & [= <-] & H1' & Hd).
  apply ownPath_cons in Hm as (f1'' & file'' & [= <-] & H1'' & Hm).
  rewrite H1 in H1', H1''. injection H1' as <-. injection H1'' as <-.
  apply ownPath_cons in Hb as (f2 & contract & -> & H2 & Hb).
  apply ownPath_cons in Hd as (f2' & contract' & [= <-] & H2' & Hd).
  apply ownPath_cons in Hm as (f2'' & contract'' & [= <-] & H2'' & Hm).
  rewrite H2 in H2', H2''. injection H2' as <-. injection H2'' as <-.
  pose proof Hm as Hm'.
  apply ownPath_cons in Hm' as (f3 & mv & -> & H3 & Hmv).
  simpl in Hmv. injection Hmv as ->.
  unfold extract, bind, lift, targetMissing, extractResult.
  rewrite (getField_own _ _ _ H0). cbn [obind]. cbn [ToBoolean negb].
  rewrite (getComputed_own _ _ _ H1). cbn [obind]. cbn [ToBoolean negb].
  rewrite (getComputed_own _ _ _ H2). cbn [obind]. cbn [ToBoolean negb].
  rewrite (hexOf_own _ _ _ Hb). cbn [obind].
  rewrite (hexOf_own _ _ _ Hd). cbn [obind].
  rewrite (getField_own _ _ _ H3). reflexivity.
Qed.

(** When the target is missing and the output's [errors] is an array of
    diagnostics that can be read, the messages of those of severity "error"
    are logged and the generic error is thrown. *)
Lemma extract_generic_error
      (version : jsstring) (output : json) (fileName contractName : jsstring)
      (errors : list (jsvalue builtin)) (w : World) :
  targetMissing output fileName contractName = Ok true ->
  collectErrors output = Ok errors ->
  extract version output fileName contractName w
  = (Throw (Error GENERIC_MESSAGE),
     addLogs [missingTarget fileName contractName version errors] w).
Proof.
  intros Hmiss Herr. unfold extract, bind, lift. rewrite Hmiss, Herr.
  reflexivity.
Qed.

(** When the target is missing and the output has no [errors] array,
    reading the diagnostics fails: a [TypeError] is thrown, nothing is
    logged, and the generic error is not reached. *)
Lemma extract_without_errors_array
      (version : jsstring) (output : json) (fileName contractName : jsstring)
      (w : World) :
  targetMissing output fileName contractName = Ok true ->
  (forall items, ownPath output [lit "errors"] <> Some (JArray items)) ->
  extract version output fileName contractName w = (Throw TypeError, w).
Proof.
  intros Hmiss Herr. unfold extract, bind, lift. rewrite Hmiss.
  assert (collectErrors output = Throw TypeError) as ->; [|reflexivity].
  unfold collectErrors.
  destruct output as [| | | | |props]; try reflexivity.
  simpl. simpl in Herr.
  destruct (ownProperty props (lit "errors")) as [[| | | |items|]|];
    try reflexivity.
  destruct (Herr items eq_refl).
Qed.

(** The output of a compilation that produced neither contracts nor
    diagnostics. *)
Lemma extract_bare_output
      (version fileName contractName : jsstring) (w : World) :
  extract version (JObject []) fileName contractName w = (Throw TypeError, w).
Proof.
  apply extract_without_errors_array; [reflexivity | discriminate].
Qed.

End Extractor.

(** ** The recompilation call *)

Section Recompilation.
Context {P : Platform}.

(** The steps of [recompile] once the metadata has been reformatted. *)
Lemma recompile_steps
      (m : Metadata) (s : StringMap) (w : World)
      (logs : list (LogRecord builtin)) (input : json)
      (fileName contractName : jsstring) :
  reformatMetadata m s = (logs, Ok (input, fileName, contractName)) ->
  recompile m s w
  = match useCompiler (compilerVersion m) input
            (addLogs [recompiling fileName contractName (compilerVersion m)]
                     (addLogs logs w)) with
    | (Ok compiled, w2) =>
        match JSON_parse compiled with
        | Ok output =>
            extract (compilerVersion m) output fileName contractName w2
        | Throw e => (Throw e, w2)
        end
    | (Throw e, w2) => (Throw e, w2)
    end.
Proof.
  intros H. unfold recompile, bind. rewrite H. simpl.
  unfold log, recompiling.
  destruct (useCompiler _ _ _) as [[compiled|e] w2]; [|reflexivity].
  unfold lift. destruct (JSON_parse compiled); reflexivity.
Qed.

(** C8.  When the compiler's output has, for the target contract of the
    target file, the bytecode, the deployed bytecode and the metadata,
    [recompile] returns the two bytecodes with [0x] in front and the
    metadata with the white space at its ends removed. *)
Theorem recompile_returns_artifacts
        (m : Metadata) (s : StringMap) (w w2 : World)
        (logs : list (LogRecord builtin)) (input : json)
        (fileName contractName compiled : jsstring) (output : json)
        (b d md : jsstring) :
  reformatMetadata m s = (logs, Ok (input, fileName, contractName)) ->
  useCompiler (compilerVersion m) input
    (addLogs [recompiling fileName contractName (compilerVersion m)]
             (addLogs logs w))
  = (Ok compiled, w2) ->
  JSON_parse compiled = Ok output ->
  ownPath output [lit "contracts"; fileName; contractName;
                  lit "evm"; lit "bytecode"; lit "object"] = Some (JString b) ->
  ownPath output [lit "contracts"; fileName; contractName;
                  lit "evm"; lit "deployedBytecode"; lit "object"]
  = Some (JString d) ->
  ownPath output [lit "contracts"; fileName; contractName; lit "metadata"]
  = Some (JString md) ->
  recompile m s w
  = (Ok {| bytecode := lit "0x" ++ b; deployedBytecode := lit "0x" ++ d;
           metadata := trim md |}, w2).
Proof.
  intros Hr Hc Hp Hb Hd Hm.
  rewrite (recompile_steps _ _ _ _ _ _ _ Hr), Hc, Hp.
  apply extract_artifacts; assumption.
Qed.

(** With the binary in neither directory and the request for it
    rejected, [recompile] throws the rejection; the last thing logged is
    that the binary is being fetched, so the compiler module has not been
    looked for. *)
Lemma recompile_fetch_rejected
      (m : Metadata) (s : StringMap) (w : World)
      (logs : list (LogRecord builtin)) (input : json)
      (fileName contractName encoded : jsstring) (reason : exn) :
  reformatMetadata m s = (logs, Ok (input, fileName, contractName)) ->
  existsSync (fs w) (Path_join tmpSolcRepo (solcFileName (compilerVersion m)))
  = false ->
  existsSync (fs w) (Path_join solcRepo (solcFileName (compilerVersion m)))
  = false ->
  encodeURIComponent (solcFileName (compilerVersion m)) = Ok encoded ->
  fetch (GITHUB_SOLC_REPO ++ encoded) = Rejected reason ->
  (recompile m s w).1 = Throw reason /\
  map msg (logged (recompile m s w).2)
  = map msg (logged w ++ logs)
    ++ [Some (Text (lit "Recompiling"));
        Some (Text (lit "Fetching executable solc from GitHub"))].
Proof.
  intros Hr Ht Hp He Hf.
  rewrite (recompile_steps _ _ _ _ _ _ _ Hr).
  destruct (getSolcExecutable_fetch_rejected (compilerVersion m)
              (addLogs [recompiling fileName contractName (compilerVersion m)]
                       (addLogs logs w)) encoded reason Ht Hp He Hf)
    as (w' & Hloc & _ & Hlog).
  rewrite (useCompiler_locator_throws _ input _ _ _ Hloc).
  split; [reflexivity|]. simpl. rewrite Hlog. simpl.
  rewrite !map_app, <- !app_assoc. reflexivity.
Qed.

End Recompilation.

(** ** Scenarios *)

Section Scenarios.
Import Mock.

(** C1 with the network down.  The binary of the version is in neither
    directory and the request is rejected, while the compiler module of the
    version is on disk: [recompile] throws the rejection of the request,
    having made that one request.  In the same situation with a 404
    response the module is used and the artifacts are returned. *)
Theorem recompile_network_error_surfaces :
  let down := scenario (Rejected connectionRefused) (Ok wrote) artifacts in
  let absent := scenario (Response 404 (Ok [])) (Ok wrote) artifacts in
  (recompile (P := platform down) version066 tt (world down [soljson066])).1
  = Throw connectionRefused /\
  length (requests (recompile (P := platform down) version066 tt
                              (world down [soljson066])).2) = 1%nat /\
  (recompile (P := platform absent) version066 tt (world absent [soljson066])).1
  = Ok {| bytecode := lit "0x6001"; deployedBytecode := lit "0x6002";
          metadata := lit "{}" |}.
Proof. vm_compute. repeat split. Qed.

(** C2 without diagnostics.  The output has no entry for the target
    file and no [errors] array: [recompile] throws a [TypeError], not the
    generic error.  With an [errors] array in the same output the generic
    error is thrown, after the messages of the diagnostics of severity
    "error" have been logged. *)
Theorem recompile_missing_errors_array :
  let bare := scenario (Rejected connectionRefused) (Ok wrote) otherContract in
  let diag :=
    scenario (Rejected connectionRefused) (Ok wrote) otherContractWithErrors in
  (recompile (P := platform bare) version066 tt (world bare [tmpSolc066])).1
  = Throw TypeError /\
  (recompile (P := platform bare) version066 tt (world bare [tmpSolc066])).1
  <> Throw (Error GENERIC_MESSAGE) /\
  (recompile (P := platform diag) version066 tt (world diag [tmpSolc066])).1
  = Throw (Error GENERIC_MESSAGE) /\
  last (logged (recompile (P := platform diag) version066 tt
                          (world diag [tmpSolc066])).2)
  = Some (missingTarget (P := platform diag) (lit "A.sol") (lit "A") version066
                        [FromJson (JString (lit "File not found"))]).
Proof. vm_compute. repeat split. discriminate. Qed.

(** C4 at an empty standard output.  The process ran, wrote nothing to
    its standard output and something to its standard error: the buffer is
    there, so [useCompiler] returns its text, the empty string, and throws
    nothing; the one record logged is the one that announces the
    compilation.  It is the parser that then fails in [recompile], with its
    own error. *)
Lemma useCompiler_empty_stdout :
  let sc := scenario (Rejected connectionRefused) (Ok silent) artifacts in
  stdout silent = Some [] /\
  (useCompiler (P := platform sc) version066 (JObject [])
               (world sc [tmpSolc066])).1 = Ok [] /\
  (useCompiler (P := platform sc) version066 (JObject [])
               (world sc [tmpSolc066])).1
  <> Throw (Error (lit "Recompilation error")) /\
  map msg (logged (useCompiler (P := platform sc) version066 (JObject [])
                               (world sc [tmpSolc066])).2)
  = [Some (Text (lit "Compiling with external executable"))] /\
  (recompile (P := platform sc) version066 tt (world sc [tmpSolc066])).1
  = Throw unexpectedEnd.
Proof. vm_compute. repeat split. discriminate. Qed.

Lemma useCompiler_no_stdout_witness :
  let sc := scenario (Rejected connectionRefused) (Ok notStarted) artifacts in
  exists w2,
    useCompiler (P := platform sc) version066 (JObject [])
                (world sc [tmpSolc066])
    = (Throw (Error (lit "Recompilation error")), w2) /\
    map (fun l => (lvl l, msg l)) (logged w2)
    = [(INFO, Some (Text (lit "Compiling with external executable")));
       (ERROR, Some (Err (Foreign (lit "Error") (lit "spawnSync EACCES"))))].
Proof.
  intros sc.
  exact (useCompiler_no_stdout (P := platform sc) version066 (JObject [])
           (world sc [tmpSolc066]) (world sc [tmpSolc066])
           0x2F (lit "tmp/solc-repo/solc-linux-amd64-v0.6.6+commit.6c089d02")
           notStarted eq_refl eq_refl eq_refl).
Defined.

Lemma getSolcExecutable_local_first_witness :
  let sc := scenario (Rejected connectionRefused) (Ok wrote) artifacts in
  getSolcExecutable (P := platform sc) version066
                    (world sc [repoSolc066; tmpSolc066])
  = (Ok (Some tmpSolc066), world sc [repoSolc066; tmpSolc066]) /\
  getSolcExecutable (P := platform sc) version066 (world sc [repoSolc066])
  = (Ok (Some repoSolc066), world sc [repoSolc066]).
Proof.
  intros sc. split.
  - apply (proj1 (getSolcExecutable_local_first (P := platform sc)
                    version066 (world sc [repoSolc066; tmpSolc066]))).
    reflexivity.
  - apply (proj2 (getSolcExecutable_local_first (P := platform sc)
                    version066 (world sc [repoSolc066]))); reflexivity.
Defined.

Lemma recompile_returns_artifacts_witness :
  let sc := scenario (Rejected connectionRefused) (Ok wrote) artifacts in
  (recompile (P := platform sc) version066 tt (world sc [tmpSolc066])).1
  = Ok {| bytecode := lit "0x6001"; deployedBytecode := lit "0x6002";
          metadata := lit "{}" |}.
Proof.
  intros sc.
  rewrite (recompile_returns_artifacts (P := platform sc) version066 tt
             (world sc [tmpSolc066]) _ [] (JObject [])
             (lit "A.sol") (lit "A") emitted artifacts
             (lit "6001") (lit "6002") (lit "  {}  ")
             eq_refl eq_refl eq_refl eq_refl eq_refl eq_refl).
  reflexivity.
Defined.

End Scenarios.

(** * Further properties *)

(** ** Versions and bytecode *)

Section MoreStrings.

Lemma trimStart_whiteSpace_app (l s : jsstring) :
  forallb isWhiteSpace l = true -> trimStart (l ++ s) = trimStart s.
Proof.
  induction l as [|c l IH]; simpl; [reflexivity|].
  intros H. apply andb_true_iff in H as [Hc Hl]. rewrite Hc. auto.
Qed.

Lemma trimStart_app (s r : jsstring) :
  trimStart (s ++ r) = trimStart s ++ r \/
  (trimStart s = [] /\ trimStart (s ++ r) = trimStart r).
Proof.
  induction s as [|c s IH]; simpl.
  - right. auto.
  - destruct (isWhiteSpace c); [exact IH | left; reflexivity].
Qed.

Lemma trimEnd_app_whiteSpace (s r : jsstring) :
  forallb isWhiteSpace r = true -> trimEnd (s ++ r) = trimEnd s.
Proof.
  intros Hr. unfold trimEnd. rewrite reverse_app.
  rewrite trimStart_whiteSpace_app; [reflexivity|].
  rewrite forallb_forall in *. intros x Hx. apply Hr.
  apply list_elem_of_In. apply list_elem_of_In in Hx.
  rewrite elem_of_reverse in Hx. exact Hx.
Qed.

Lemma trimStart_all_whiteSpace (r : jsstring) :
  forallb isWhiteSpace r = true -> trimStart r = [].
Proof.
  intros H. rewrite <- (app_nil_r r). rewrite trimStart_whiteSpace_app by exact H.
  reflexivity.
Qed.

(** White space around a string does not change what [trim] gives. *)
Lemma trim_whiteSpace_around (l s r : jsstring) :
  forallb isWhiteSpace l = true -> forallb isWhiteSpace r = true ->
  trim (l ++ s ++ r) = trim s.
Proof.
  intros Hl Hr. unfold trim. rewrite trimStart_whiteSpace_app by exact Hl.
  destruct (trimStart_app s r) as [E|[E1 E2]].
  - rewrite E. apply trimEnd_app_whiteSpace, Hr.
  - rewrite E2, E1, (trimStart_all_whiteSpace r Hr). reflexivity.
Qed.

(** X2.  The version that [getSolcJs] works with does not depend on
    white space around the version it is given. *)
Theorem canonicalVersion_whiteSpace_around (l raw r : jsstring) :
  forallb isWhiteSpace l = true -> forallb isWhiteSpace r = true ->
  canonicalVersion (l ++ raw ++ r) = canonicalVersion raw.
Proof.
  intros Hl Hr. unfold canonicalVersion.
  rewrite trim_whiteSpace_around by assumption. reflexivity.
Qed.

Lemma canonicalVersion_whiteSpace_around_witness :
  canonicalVersion (lit "	 " ++ lit "0.6.6+commit.6c089d02" ++ lit "  ")
  = canonicalVersion (lit "0.6.6+commit.6c089d02").
Proof.
  apply canonicalVersion_whiteSpace_around; reflexivity.
Defined.

(** X3.  The version that [getSolcJs] works with is ["latest"] or begins
    with [v], and has no white space at its ends. *)
Theorem canonicalVersion_shape (raw : jsstring) :
  (canonicalVersion raw = lit "latest" \/
   exists r, canonicalVersion raw = lit "v" ++ r) /\
  trim (canonicalVersion raw) = canonicalVersion raw.
Proof.
  unfold canonicalVersion.
  destruct (str_eqb (trim raw) (lit "latest")) eqn:El; cbn [negb andb].
  - apply str_eqb_eq in El. rewrite El. split; [left|]; reflexivity.
  - destruct (startsWith (trim raw) (lit "v")) eqn:Ev; cbn [negb andb].
    + split; [right; apply startsWith_spec, Ev | apply trim_idem].
    + split; [right; eauto|].
      change (lit "v" ++ trim raw) with (118%N :: trim raw).
      apply trim_cons_trimmed. reflexivity.
Qed.

End MoreStrings.

Section MoreBytecode.

(** The size computed for a bytecode that ends in four hexadecimal
    digits. *)
Lemma metadataSize_four_digits
      (body : jsstring) (h1 h2 h3 h4 : N) (v1 v2 v3 v4 : Z) :
  hexDigit h1 = Some v1 -> hexDigit h2 = Some v2 ->
  hexDigit h3 = Some v3 -> hexDigit h4 = Some v4 ->
  metadataSize (body ++ [h1; h2; h3; h4])
  = Num (2 * (4096 * v1 + 256 * v2 + 16 * v3 + v4) + 4).
Proof.
  intros H1 H2 H3 H4. unfold metadataSize.
  rewrite slice_last_four by reflexivity.
  rewrite (parseInt16_four_digits _ _ _ _ _ _ _ _ H1 H2 H3 H4).
  simpl. f_equal. lia.
Qed.

(** X4.  Code followed by a metadata section of [n] bytes and by the
    two bytes that write [n] is given back as the code alone, whatever the
    content of the metadata: two bytecodes that differ in their metadata
    only are equal once stripped. *)
Theorem getBytecodeWithoutMetadata_round_trip
        (code meta : jsstring) (h1 h2 h3 h4 : N) (v1 v2 v3 v4 : Z) :
  hexDigit h1 = Some v1 -> hexDigit h2 = Some v2 ->
  hexDigit h3 = Some v3 -> hexDigit h4 = Some v4 ->
  Z.of_nat (length meta) = 2 * (4096 * v1 + 256 * v2 + 16 * v3 + v4) ->
  getBytecodeWithoutMetadata (code ++ meta ++ [h1; h2; h3; h4]) = code.
Proof.
  intros H1 H2 H3 H4 Hmeta.
  set (n := 4096 * v1 + 256 * v2 + 16 * v3 + v4) in *.
  set (bytecode := code ++ meta ++ [h1; h2; h3; h4]).
  assert (Hsize : metadataSize bytecode = Num (2 * n + 4)).
  { unfold bytecode. rewrite app_assoc.
    apply metadataSize_four_digits; assumption. }
  assert (Hlen : Z.of_nat (length bytecode)
                 = Z.of_nat (length code) + (2 * n + 4)).
  { unfold bytecode. rewrite !length_app. simpl. lia. }
  destruct (slice_from_start bytecode
              (sub (Num (Z.of_nat (length bytecode))) (metadataSize bytecode)))
    as (k & Hk & Hkz).
  unfold getBytecodeWithoutMetadata. rewrite Hk.
  rewrite Hsize in Hkz. simpl in Hkz. unfold relativeIndex in Hkz.
  destruct (Z.ltb_spec (Z.of_nat (length bytecode) - (2 * n + 4)) 0); [lia|].
  assert (k = length code) as -> by lia.
  unfold bytecode. apply take_app_length.
Qed.

Lemma getBytecodeWithoutMetadata_round_trip_witness :
  getBytecodeWithoutMetadata (lit "60016002" ++ lit "a264697066" ++ lit "0005")
  = lit "60016002" /\
  getBytecodeWithoutMetadata (lit "60016002" ++ lit "ffffffffff" ++ lit "0005")
  = lit "60016002".
Proof.
  split.
  - apply (getBytecodeWithoutMetadata_round_trip
             (lit "60016002") (lit "a264697066") 0x30 0x30 0x30 0x35 0 0 0 5);
      reflexivity.
  - apply (getBytecodeWithoutMetadata_round_trip
             (lit "60016002") (lit "ffffffffff") 0x30 0x30 0x30 0x35 0 0 0 5);
      reflexivity.
Defined.

(** X5.  A length field that [parseInt] reads as a number so negative
    that the computed size is not positive (the last four characters may
    begin with a minus sign) removes nothing: the bytecode is returned
    whole. *)
Theorem getBytecodeWithoutMetadata_nonpositive_size
        (bytecode : jsstring) (m : Z) :
  metadataSize bytecode = Num m -> m <= 0 ->
  getBytecodeWithoutMetadata bytecode = bytecode.
Proof.
  intros Hm Hneg.
  destruct (slice_from_start bytecode
              (sub (Num (Z.of_nat (length bytecode))) (metadataSize bytecode)))
    as (k & Hk & Hkz).
  unfold getBytecodeWithoutMetadata. rewrite Hk.
  rewrite Hm in Hkz. simpl in Hkz. unfold relativeIndex in Hkz.
  destruct (Z.ltb_spec (Z.of_nat (length bytecode) - m) 0); [lia|].
  apply take_ge. lia.
Qed.

Lemma getBytecodeWithoutMetadata_nonpositive_size_witness :
  getBytecodeWithoutMetadata (lit "60016002-00f") = lit "60016002-00f".
Proof.
  apply (getBytecodeWithoutMetadata_nonpositive_size _ (-26)).
  - reflexivity.
  - discriminate.
Defined.

End MoreBytecode.

(** ** The tiers of the compiler lookup *)

Section MoreLocator.
Context {P : Platform}.

(** A list does not grow and stay the same. *)
Lemma snoc_neq {A} (l : list A) (x : A) : l ++ [x] <> l.
Proof.
  intros H. apply (f_equal length) in H. rewrite length_app in H.
  simpl in H. lia.
Qed.

(** The world after a download that went well. *)
Lemma getSolcExecutable_download_world
      (version : jsstring) (w : World) (encoded : jsstring)
      (buffer : Buffer) (fs1 fs2 : FS) :
  existsSync (fs w) (Path_join tmpSolcRepo (solcFileName version)) = false ->
  existsSync (fs w) (Path_join solcRepo (solcFileName version)) = false ->
  encodeURIComponent (solcFileName version) = Ok encoded ->
  fetch (GITHUB_SOLC_REPO ++ encoded) = Response StatusCodes_OK (Ok buffer) ->
  mkdirSync_recursive (fs w)
    (Path_dirname (Path_join tmpSolcRepo (solcFileName version))) = Ok fs1 ->
  writeFileSync_0o755 fs1 (Path_join tmpSolcRepo (solcFileName version)) buffer
  = Ok fs2 ->
  exists logs,
    getSolcExecutable version w
    = (Ok (Some (Path_join tmpSolcRepo (solcFileName version))),
       {| fs := fs2; logged := logged w ++ logs;
          requests := requests w ++ [GITHUB_SOLC_REPO ++ encoded] |}) /\
    map msg logs
    = [Some (Text (lit "Fetching executable solc from GitHub"));
       Some (Text (lit "Successfully fetched executable solc from GitHub"))].
Proof.
  intros Ht Hp He Hf Hm Hw. eexists. split.
  - unfold getSolcExecutable, bind.
    rewrite firstExisting_skip by exact Ht.
    rewrite firstExisting_skip by exact Hp.
    simpl firstExisting. unfold ret at 1.
    unfold fetchSolcFromGitHub, bind, lift. rewrite He.
    unfold log, await_fetch. rewrite Hf. cbn [fst snd].
    rewrite (bool_decide_eq_true_2 _ eq_refl).
    unfold fs_update. cbn [fs addLogs addRequest logged requests].
    rewrite Hm. cbn [fs logged requests]. rewrite Hw.
    unfold ret. rewrite <- app_assoc. reflexivity.
  - reflexivity.
Qed.

(** X7.  When the binary is in neither directory and the archive
    answers 200, the directory of the temporary path is created, the body is
    written to the temporary path (also when a repository is configured),
    and that path is returned; one request has been made, for the encoded
    file name under the archive's base. *)
Theorem getSolcExecutable_downloads
        (version : jsstring) (w : World) (encoded : jsstring)
        (buffer : Buffer) (fs1 fs2 : FS) :
  existsSync (fs w) (Path_join tmpSolcRepo (solcFileName version)) = false ->
  existsSync (fs w) (Path_join solcRepo (solcFileName version)) = false ->
  encodeURIComponent (solcFileName version) = Ok encoded ->
  fetch (GITHUB_SOLC_REPO ++ encoded) = Response StatusCodes_OK (Ok buffer) ->
  mkdirSync_recursive (fs w)
    (Path_dirname (Path_join tmpSolcRepo (solcFileName version))) = Ok fs1 ->
  writeFileSync_0o755 fs1 (Path_join tmpSolcRepo (solcFileName version)) buffer
  = Ok fs2 ->
  (getSolcExecutable version w).1
  = Ok (Some (Path_join tmpSolcRepo (solcFileName version))) /\
  fs (getSolcExecutable version w).2 = fs2 /\
  requests (getSolcExecutable version w).2
  = requests w ++ [GITHUB_SOLC_REPO ++ encoded] /\
  map msg (logged (getSolcExecutable version w).2)
  = map msg (logged w)
    ++ [Some (Text (lit "Fetching executable solc from GitHub"));
        Some (Text (lit "Successfully fetched executable solc from GitHub"))].
Proof.
  intros Ht Hp He Hf Hm Hw.
  destruct (getSolcExecutable_download_world version w encoded buffer fs1 fs2
              Ht Hp He Hf Hm Hw) as (logs & E & Hlogs).
  rewrite E. cbn [fst snd fs requests logged].
  rewrite map_app, Hlogs. auto.
Qed.

(** X8.  A binary that has been downloaded is found by the next lookup:
    on a file system where a written file exists, the second call returns
    the same path and makes no further request. *)
Theorem getSolcExecutable_download_is_cached
        (version : jsstring) (w : World) (encoded : jsstring)
        (buffer : Buffer) (fs1 fs2 : FS) :
  existsSync (fs w) (Path_join tmpSolcRepo (solcFileName version)) = false ->
  existsSync (fs w) (Path_join solcRepo (solcFileName version)) = false ->
  encodeURIComponent (solcFileName version) = Ok encoded ->
  fetch (GITHUB_SOLC_REPO ++ encoded) = Response StatusCodes_OK (Ok buffer) ->
  mkdirSync_recursive (fs w)
    (Path_dirname (Path_join tmpSolcRepo (solcFileName version))) = Ok fs1 ->
  writeFileSync_0o755 fs1 (Path_join tmpSolcRepo (solcFileName version)) buffer
  = Ok fs2 ->
  existsSync fs2 (Path_join tmpSolcRepo (solcFileName version)) = true ->
  let first := getSolcExecutable version w in
  let second := getSolcExecutable version first.2 in
  second.1 = first.1 /\
  second.2 = first.2 /\
  requests second.2 = requests w ++ [GITHUB_SOLC_REPO ++ encoded].
Proof.
  intros Ht Hp He Hf Hm Hw Hx first second.
  destruct (getSolcExecutable_download_world version w encoded buffer fs1 fs2
              Ht Hp He Hf Hm Hw) as (logs & E & _).
  subst second first. rewrite E. cbn [fst snd].
  assert (E2 : getSolcExecutable version
                 {| fs := fs2; logged := logged w ++ logs;
                    requests := requests w ++ [GITHUB_SOLC_REPO ++ encoded] |}
               = (Ok (Some (Path_join tmpSolcRepo (solcFileName version))),
                  {| fs := fs2; logged := logged w ++ logs;
                     requests := requests w ++ [GITHUB_SOLC_REPO ++ encoded] |})).
  { unfold getSolcExecutable, bind.
    rewrite firstExisting_found by exact Hx. reflexivity. }
  rewrite E2. auto.
Qed.

(** X9.  When the archive answers 200 and the body then fails to
    arrive, the failure is thrown; the directory has been created by then
    and no file has been written. *)
Theorem getSolcExecutable_body_fails
        (version : jsstring) (w : World) (encoded : jsstring)
        (e : exn) (fs1 : FS) :
  existsSync (fs w) (Path_join tmpSolcRepo (solcFileName version)) = false ->
  existsSync (fs w) (Path_join solcRepo (solcFileName version)) = false ->
  encodeURIComponent (solcFileName version) = Ok encoded ->
  fetch (GITHUB_SOLC_REPO ++ encoded) = Response StatusCodes_OK (Throw e) ->
  mkdirSync_recursive (fs w)
    (Path_dirname (Path_join tmpSolcRepo (solcFileName version))) = Ok fs1 ->
  (getSolcExecutable version w).1 = Throw e /\
  fs (getSolcExecutable version w).2 = fs1.
Proof.
  intros Ht Hp He Hf Hm.
  assert (E : exists logs,
             getSolcExecutable version w
             = (Throw e,
                {| fs := fs1; logged := logs;
                   requests := requests w ++ [GITHUB_SOLC_REPO ++ encoded] |})).
  { eexists. unfold getSolcExecutable, bind.
    rewrite firstExisting_skip by exact Ht.
    rewrite firstExisting_skip by exact Hp.
    simpl firstExisting. unfold ret at 1.
    unfold fetchSolcFromGitHub, bind, lift. rewrite He.
    unfold log, await_fetch. rewrite Hf. cbn [fst snd].
    rewrite (bool_decide_eq_true_2 _ eq_refl).
    unfold fs_update. cbn [fs addLogs addRequest logged requests].
    rewrite Hm. reflexivity. }
  destruct E as (logs & E). rewrite E. split; reflexivity.
Qed.

(** The two ways of finding the binary on disk. *)
Lemma getSolcExecutable_found_tmp (version : jsstring) (w : World) :
  existsSync (fs w) (Path_join tmpSolcRepo (solcFileName version)) = true ->
  getSolcExecutable version w
  = (Ok (Some (Path_join tmpSolcRepo (solcFileName version))), w).
Proof.
  intros Ht. unfold getSolcExecutable, bind.
  rewrite firstExisting_found by exact Ht. reflexivity.
Qed.

Lemma getSolcExecutable_found_repo (version : jsstring) (w : World) :
  existsSync (fs w) (Path_join tmpSolcRepo (solcFileName version)) = false ->
  existsSync (fs w) (Path_join solcRepo (solcFileName version)) = true ->
  getSolcExecutable version w
  = (Ok (Some (Path_join solcRepo (solcFileName version))), w).
Proof.
  intros Ht Hp. unfold getSolcExecutable, bind.
  rewrite firstExisting_skip by exact Ht.
  rewrite firstExisting_found by exact Hp. reflexivity.
Qed.

(** X10.  Whatever the file system and the network do, the locator makes
    at most one request, and that one to the archive; a path that it returns
    is the file's path in the temporary directory or in the repository; and
    a path returned without a request is one that exists, the world being
    left as it was. *)
Theorem getSolcExecutable_paths_and_requests (version : jsstring) (w : World) :
  (requests (getSolcExecutable version w).2 = requests w \/
   exists encoded,
     requests (getSolcExecutable version w).2
     = requests w ++ [GITHUB_SOLC_REPO ++ encoded]) /\
  (forall p,
      (getSolcExecutable version w).1 = Ok (Some p) ->
      p = Path_join tmpSolcRepo (solcFileName version) \/
      p = Path_join solcRepo (solcFileName version)) /\
  (forall p,
      (getSolcExecutable version w).1 = Ok (Some p) ->
      requests (getSolcExecutable version w).2 = requests w ->
      (getSolcExecutable version w).2 = w /\ existsSync (fs w) p = true).
Proof.
  destruct (getSolcExecutable version w) as [r w'] eqn:E. cbn [fst snd].
  revert E.
  destruct (existsSync (fs w) (Path_join tmpSolcRepo (solcFileName version)))
    eqn:Ht.
  { rewrite (getSolcExecutable_found_tmp version w Ht). intros [= <- <-].
    split; [left; reflexivity|]. split; intros p [= <-]; auto. }
  destruct (existsSync (fs w) (Path_join solcRepo (solcFileName version)))
    eqn:Hp.
  { rewrite (getSolcExecutable_found_repo version w Ht Hp). intros [= <- <-].
    split; [left; reflexivity|]. split; intros p [= <-]; auto. }
  unfold getSolcExecutable, bind.
  rewrite firstExisting_skip by exact Ht.
  rewrite firstExisting_skip by exact Hp.
  simpl firstExisting. unfold ret at 1.
  unfold fetchSolcFromGitHub, bind, lift.
  destruct (encodeURIComponent (solcFileName version)) as [encoded|e].
  2:{ intros [= <- <-]. split; [left; reflexivity|].
      split; intros p; discriminate. }
  unfold log, await_fetch.
  destruct (fetch (GITHUB_SOLC_REPO ++ encoded)) as [reason|status body].
  { intros [= <- <-]. split; [right; exists encoded; reflexivity|].
    split; intros p; discriminate. }
  cbn [fst snd]. destruct (bool_decide (status = StatusCodes_OK)).
  2:{ intros [= <- <-]. split; [right; exists encoded; reflexivity|].
      split; intros p; discriminate. }
  unfold fs_update. cbn [fs addLogs addRequest logged requests].
  destruct (mkdirSync_recursive _ _) as [fs1|e].
  2:{ intros [= <- <-]. split; [right; exists encoded; reflexivity|].
      split; intros p; discriminate. }
  cbn [fs logged requests]. destruct body as [buffer|e].
  2:{ intros [= <- <-]. split; [right; exists encoded; reflexivity|].
      split; intros p; discriminate. }
  destruct (writeFileSync_0o755 _ _ _) as [fs2|e].
  2:{ intros [= <- <-]. split; [right; exists encoded; reflexivity|].
      split; intros p; discriminate. }
  unfold ret. intros [= <- <-]. cbn [requests].
  split; [right; exists encoded; reflexivity|]. split.
  - intros p [= <-]. auto.
  - intros p _ H. destruct (snoc_neq _ _ H).
Qed.

End MoreLocator.

Section MoreInvoker.
Context {P : Platform}.

(** The path under which [getSolcJs] looks for the module of a
    version. *)
Lemma getSolcJs_remote_fails (version : jsstring) (w : World) (e : exn) :
  existsSync (fs w)
    (Path_resolve (envOr (lit "SOLJSON_REPO") (lit "soljson-repo"))
       (lit "soljson-" ++ canonicalVersion version ++ lit ".js")) = false ->
  loadRemoteVersion (canonicalVersion version) = Throw e ->
  exists logs,
    getSolcJs (Some version) w = (Throw e, addLogs logs w) /\
    map msg logs
    = [Some (Text (lit "Searching for js solc locally"));
       Some (Text (lit "Searching for js solc remotely"));
       Some (Text (lit "Could not find solc remotely"))].
Proof.
  intros Hx Hr. eexists. split.
  - unfold getSolcJs.
    change (default (lit "latest") (Some version)) with version.
    unfold bind, log, fs_existsSync. cbn [fs addLogs].
    rewrite Hx, Hr. unfold bind, log, throw.
    unfold addLogs. cbn [fs logged requests].
    rewrite <- !app_assoc. reflexivity.
  - reflexivity.
Qed.

(** X11.  When the binary is in neither directory and the archive
    answers with another status than 200, the compiler module is used: with
    the module of the canonical version on disk, [useCompiler] returns what
    the module's [compile] gives for the stringified input. *)
Theorem useCompiler_falls_back_to_module
        (version : jsstring) (input : json) (w : World)
        (encoded : jsstring) (status : Z) (body : outcome Buffer)
        (soljson : Soljson) :
  existsSync (fs w) (Path_join tmpSolcRepo (solcFileName version)) = false ->
  existsSync (fs w) (Path_join solcRepo (solcFileName version)) = false ->
  encodeURIComponent (solcFileName version) = Ok encoded ->
  fetch (GITHUB_SOLC_REPO ++ encoded) = Response status body ->
  status <> StatusCodes_OK ->
  existsSync (fs w)
    (Path_resolve (envOr (lit "SOLJSON_REPO") (lit "soljson-repo"))
       (lit "soljson-" ++ canonicalVersion version ++ lit ".js")) = true ->
  requireSoljson (fs w)
    (Path_resolve (envOr (lit "SOLJSON_REPO") (lit "soljson-repo"))
       (lit "soljson-" ++ canonicalVersion version ++ lit ".js")) = Ok soljson ->
  (useCompiler version input w).1 = compile soljson (JSON_stringify input).
Proof.
  intros Ht Hp He Hf Hs Hx Hq.
  destruct (getSolcExecutable_not_ok version w encoded status body
              Ht Hp He Hf Hs) as (w1 & Hloc & Hfs & _).
  unfold useCompiler, bind. rewrite Hloc.
  pose proof (proj1 (getSolcJs_canonical (Some version) w1)) as Hjs.
  change (default (lit "latest") (Some version)) with version in Hjs.
  rewrite Hfs in Hjs. specialize (Hjs Hx).
  rewrite Hq in Hjs.
  destruct (getSolcJs (Some version) w1) as [[sj|e] w2]; cbn [fst] in Hjs;
    [|discriminate].
  injection Hjs as ->. reflexivity.
Qed.

(** X12.  When no tier has the compiler (the binary is in neither
    directory, the archive answers with another status than 200, the module
    is not on disk and the remote registry fails), [recompile] throws the
    registry's error, and the last record logged says that solc could not be
    found remotely. *)
Theorem recompile_solc_not_found
        (m : Metadata) (s : StringMap) (w : World)
        (logs : list (LogRecord builtin)) (input : json)
        (fileName contractName encoded : jsstring)
        (status : Z) (body : outcome Buffer) (e : exn) :
  reformatMetadata m s = (logs, Ok (input, fileName, contractName)) ->
  existsSync (fs w) (Path_join tmpSolcRepo (solcFileName (compilerVersion m)))
  = false ->
  existsSync (fs w) (Path_join solcRepo (solcFileName (compilerVersion m)))
  = false ->
  encodeURIComponent (solcFileName (compilerVersion m)) = Ok encoded ->
  fetch (GITHUB_SOLC_REPO ++ encoded) = Response status body ->
  status <> StatusCodes_OK ->
  existsSync (fs w)
    (Path_resolve (envOr (lit "SOLJSON_REPO") (lit "soljson-repo"))
       (lit "soljson-" ++ canonicalVersion (compilerVersion m) ++ lit ".js"))
  = false ->
  loadRemoteVersion (canonicalVersion (compilerVersion m)) = Throw e ->
  (recompile m s w).1 = Throw e /\
  last (map msg (logged (recompile m s w).2))
  = Some (Some (Text (lit "Could not find solc remotely"))).
Proof.
  intros Hr Ht Hp He Hf Hs Hx Hl.
  rewrite (recompile_steps _ _ _ _ _ _ _ Hr).
  destruct (getSolcExecutable_not_ok (compilerVersion m)
              (addLogs [recompiling fileName contractName (compilerVersion m)]
                       (addLogs logs w)) encoded status body Ht Hp He Hf Hs)
    as (w1 & Hloc & Hfs & _).
  cbn [fs addLogs] in Hfs. rewrite <- Hfs in Hx.
  destruct (getSolcJs_remote_fails (compilerVersion m) w1 e Hx Hl)
    as (l3 & Hjs & Hl3).
  unfold useCompiler, bind. rewrite Hloc, Hjs.
  cbn [fst snd logged addLogs]. split; [reflexivity|].
  rewrite map_app, Hl3.
  rewrite last_app. reflexivity.
Qed.

End MoreInvoker.

(** ** Diagnostics and malformed entries *)

Section MoreExtractor.
Context {P : Platform}.

Lemma severityIsError_pure (e : json) :
  e <> JNull -> severityIsError e = Ok (hasErrorSeverity e).
Proof.
  intros He. unfold severityIsError, hasErrorSeverity.
  destruct e as [| | | | |props]; try reflexivity; [congruence|].
  simpl. destruct (ownProperty props (lit "severity")) as [[]|]; reflexivity.
Qed.

Lemma getMessage_pure (e : json) :
  e <> JNull ->
  getField (FromJson e) (lit "message") = Ok (messageOf (builtin := builtin) e).
Proof.
  intros He. unfold messageOf.
  destruct e as [| | | | |props]; try reflexivity; [congruence|].
  simpl. destruct (ownProperty props (lit "message")); reflexivity.
Qed.

Lemma filterErrors_pure (items : list json) :
  Forall (fun e => e <> JNull) items ->
  filterErrors items = Ok (List.filter hasErrorSeverity items).
Proof.
  induction 1 as [|e items He _ IH]; [reflexivity|].
  simpl. rewrite (severityIsError_pure e He), IH. simpl.
  destruct (hasErrorSeverity e); reflexivity.
Qed.

Lemma mapMessages_pure (items : list json) :
  Forall (fun e => e <> JNull) items ->
  mapMessages items = Ok (map (messageOf (builtin := builtin)) items).
Proof.
  induction 1 as [|e items He _ IH]; [reflexivity|].
  cbn [mapMessages]. rewrite (getMessage_pure e He). cbn [obind].
  rewrite IH. reflexivity.
Qed.

Lemma filterErrors_null (items : list json) :
  In JNull items -> filterErrors items = Throw TypeError.
Proof.
  induction items as [|e items IH]; [intros []|].
  intros [->|Hin]; [reflexivity|].
  cbn [filterErrors].
  assert (He : e = JNull \/ e <> JNull)
    by (destruct e; [left; reflexivity | right; discriminate ..]).
  destruct He as [->|He]; [reflexivity|].
  rewrite (severityIsError_pure e He), (IH Hin). reflexivity.
Qed.

(** X13.  When the target is missing and the diagnostics are an array
    without [null], the generic error is thrown, and what is logged under
    [errors] is the [message] of each diagnostic whose severity is "error",
    in the order of the array; warnings and other severities are left
    out. *)
Theorem extract_logs_error_messages
        (version : jsstring) (output : json) (fileName contractName : jsstring)
        (items : list json) (w : World) :
  targetMissing output fileName contractName = Ok true ->
  ownPath output [lit "errors"] = Some (JArray items) ->
  Forall (fun e => e <> JNull) items ->
  extract version output fileName contractName w
  = (Throw (Error GENERIC_MESSAGE),
     addLogs [missingTarget fileName contractName version
                (map messageOf (List.filter hasErrorSeverity items))] w).
Proof.
  intros Hmiss Herr Hall.
  apply extract_generic_error; [exact Hmiss|].
  apply ownPath_cons in Herr as (props & y & -> & Hown & Hy).
  simpl in Hy. injection Hy as ->.
  unfold collectErrors. rewrite (getField_own _ _ _ Hown). cbn [obind].
  rewrite (filterErrors_pure items Hall). cbn [obind].
  apply mapMessages_pure.
  rewrite Forall_forall in *. intros e He. apply Hall.
  apply list_elem_of_In. apply list_elem_of_In in He.
  apply filter_In in He. tauto.
Qed.

(** X14.  A [null] among the diagnostics makes the reading of its
    severity fail: when the target is missing, a [TypeError] is thrown in
    place of the generic error and nothing is logged. *)
Theorem extract_null_diagnostic
        (version : jsstring) (output : json) (fileName contractName : jsstring)
        (items : list json) (w : World) :
  targetMissing output fileName contractName = Ok true ->
  ownPath output [lit "errors"] = Some (JArray items) ->
  In JNull items ->
  extract version output fileName contractName w = (Throw TypeError, w).
Proof.
  intros Hmiss Herr Hin.
  apply ownPath_cons in Herr as (props & y & -> & Hown & Hy).
  simpl in Hy. injection Hy as ->.
  unfold extract, bind, lift. rewrite Hmiss.
  unfold collectErrors. rewrite (getField_own _ _ _ Hown). cbn [obind].
  rewrite (filterErrors_null items Hin). reflexivity.
Qed.

Lemma obind_Ok {A B} (o : outcome A) (k : A -> outcome B) (b : B) :
  obind o k = Ok b -> exists a, o = Ok a /\ k a = Ok b.
Proof. destruct o as [a|e]; simpl; [eauto | discriminate]. Qed.

Lemma hexOf_Ok (contract : jsvalue builtin) (kind text : jsstring) :
  hexOf contract kind = Ok text -> exists t, text = lit "0x" ++ t.
Proof.
  unfold hexOf. intros H.
  apply obind_Ok in H as (evm & _ & H).
  apply obind_Ok in H as (code & _ & H).
  apply obind_Ok in H as (object & _ & H).
  apply obind_Ok in H as (t & _ & H).
  injection H as <-. eauto.
Qed.

(** X15.  A result is returned only when the target is there, and then
    nothing is logged by the extraction and both bytecodes of the result
    begin with [0x]. *)
Theorem extract_result_inversion
        (version : jsstring) (output : json) (fileName contractName : jsstring)
        (w w' : World) (r : RecompilationResult) :
  extract version output fileName contractName w = (Ok r, w') ->
  targetMissing output fileName contractName = Ok false /\
  w' = w /\
  (exists b, bytecode r = lit "0x" ++ b) /\
  (exists d, deployedBytecode r = lit "0x" ++ d).
Proof.
  unfold extract, bind, lift.
  destruct (targetMissing output fileName contractName) as [[|]|e];
    [|intros H|discriminate].
  - destruct (collectErrors output); discriminate.
  - injection H as H <-. split; [reflexivity|]. split; [reflexivity|].
    unfold extractResult in H.
    apply obind_Ok in H as (contracts & _ & H).
    apply obind_Ok in H as (file & _ & H).
    apply obind_Ok in H as (contract & _ & H).
    apply obind_Ok in H as (b & Hb & H).
    apply obind_Ok in H as (d & Hd & H).
    apply obind_Ok in H as (m0 & _ & H).
    apply obind_Ok in H as (t & _ & H).
    injection H as <-. cbn [bytecode deployedBytecode].
    split; eapply hexOf_Ok; eassumption.
Qed.

(** What the extraction does with an entry that is an object. *)
Lemma extract_entry
      (version : jsstring) (output : json) (fileName contractName : jsstring)
      (props : list (jsstring * json)) (w : World) :
  ownPath output [lit "contracts"; fileName; contractName]
  = Some (JObject props) ->
  extract version output fileName contractName w
  = (obind (hexOf (FromJson (JObject props)) (lit "bytecode")) (fun b =>
     obind (hexOf (FromJson (JObject props)) (lit "deployedBytecode")) (fun d =>
     obind (getField (FromJson (JObject props)) (lit "metadata")) (fun m =>
     obind (callTrim m) (fun t =>
     Ok {| bytecode := b; deployedBytecode := d; metadata := t |})))), w).
Proof.
  intros H.
  apply ownPath_cons in H as (f0 & contracts & -> & H0 & H).
  apply ownPath_cons in H as (f1 & file & -> & H1 & H).
  apply ownPath_cons in H as (f2 & contract & -> & H2 & H).
  simpl in H. injection H as ->.
  unfold extract, bind, lift, targetMissing, extractResult.
  rewrite (getField_own _ _ _ H0). cbn [obind ToBoolean negb].
  rewrite (getComputed_own _ _ _ H1). cbn [obind ToBoolean negb].
  rewrite (getComputed_own _ _ _ H2). cbn [obind ToBoolean negb].
  reflexivity.
Qed.

(** X16.  An entry for the target contract that has no [evm] property
    passes the check for a missing target, and the reading of its bytecode
    then throws a [TypeError]: neither a result nor the generic error. *)
Theorem extract_entry_without_evm
        (version : jsstring) (output : json) (fileName contractName : jsstring)
        (props : list (jsstring * json)) (w : World) :
  ownPath output [lit "contracts"; fileName; contractName]
  = Some (JObject props) ->
  ownProperty props (lit "evm") = None ->
  targetMissing output fileName contractName = Ok false /\
  extract version output fileName contractName w = (Throw TypeError, w).
Proof.
  intros H Hevm. split.
  - apply ownPath_cons in H as (f0 & contracts & -> & H0 & H).
    apply ownPath_cons in H as (f1 & file & -> & H1 & H).
    apply ownPath_cons in H as (f2 & contract & -> & H2 & H).
    simpl in H. injection H as ->. unfold targetMissing.
    rewrite (getField_own _ _ _ H0). cbn [obind ToBoolean negb].
    rewrite (getComputed_own _ _ _ H1). cbn [obind ToBoolean negb].
    rewrite (getComputed_own _ _ _ H2). reflexivity.
  - rewrite (extract_entry _ _ _ _ _ _ H). unfold hexOf at 1.
    simpl getField at 1. rewrite Hevm. reflexivity.
Qed.

(** X17.  A bytecode entry without [object] does not fail: the template
    turns the missing value into text, and the result's bytecode is
    [0xundefined]. *)
Theorem extract_bytecode_without_object
        (version : jsstring) (output : json) (fileName contractName : jsstring)
        (code : list (jsstring * json)) (d md : jsstring) (w : World) :
  ownPath output [lit "contracts"; fileName; contractName;
                  lit "evm"; lit "bytecode"] = Some (JObject code) ->
  ownProperty code (lit "object") = None ->
  ownPath output [lit "contracts"; fileName; contractName;
                  lit "evm"; lit "deployedBytecode"; lit "object"]
  = Some (JString d) ->
  ownPath output [lit "contracts"; fileName; contractName; lit "metadata"]
  = Some (JString md) ->
  extract version output fileName contractName w
  = (Ok {| bytecode := lit "0xundefined"; deployedBytecode := lit "0x" ++ d;
           metadata := trim md |}, w).
Proof.
  intros Hb Hobj Hd Hm.
  apply ownPath_cons in Hb as (f0 & contracts & -> & H0 & Hb).
  apply ownPath_cons in Hd as (f0' & contracts' & [= <-] & H0' & Hd).
  apply ownPath_cons in Hm as (f0'' & contracts'' & [= <-] & H0'' & Hm).
  rewrite H0 in H0', H0''. injection H0' as <-. injection H0'' as <-.
  apply ownPath_cons in Hb as (f1 & file & -> & H1 & Hb).
  apply ownPath_cons in Hd as (f1' & file' & [= <-] & H1' & Hd).
  apply ownPath_cons in Hm as (f1'' & file'' & [= <-] & H1'' & Hm).
  rewrite H1 in H1', H1''. injection H1' as <-. injection H1'' as <-.
  apply ownPath_cons in Hb as (f2 & contract & -> & H2 & Hb).
  apply ownPath_cons in Hd as (f2' & contract' & [= <-] & H2' & Hd).
  apply ownPath_cons in Hm as (f2'' & contract'' & [= <-] & H2'' & Hm).
  rewrite H2 in H2', H2''. injection H2' as <-. injection H2'' as <-.
  assert (Hentry : ownPath (JObject f0)
                     [lit "contracts"; fileName; contractName]
                   = Some contract).
  { simpl. rewrite H0. simpl. rewrite H1. simpl. rewrite H2. reflexivity. }
  pose proof Hm as Hm'.
  apply ownPath_cons in Hm' as (f3 & mv & -> & H3 & Hmv).
  simpl in Hmv. injection Hmv as ->.
  rewrite (extract_entry _ _ _ _ _ _ Hentry).
  rewrite (hexOf_own _ _ _ Hd).
  apply ownPath_cons in Hb as (f3' & evm & [= <-] & Hevm & Hb).
  apply ownPath_cons in Hb as (f4 & bc & -> & Hbc & Hb).
  simpl in Hb. injection Hb as ->.
  unfold hexOf. rewrite (getField_own _ _ _ Hevm). cbn [obind].
  rewrite (getField_own _ _ _ Hbc). cbn [obind].
  simpl getField at 1. rewrite Hobj. cbn [obind ToString].
  rewrite (getField_own _ _ _ H3). reflexivity.
Qed.

End MoreExtractor.

(** ** Checking an endpoint *)

Section EndpointFacts.
Context {W : Web}.

Lemma includes_spec (s p : jsstring) :
  includes s p = true <-> exists a b, s = a ++ p ++ b.
Proof.
  induction s as [|c s IH].
  - simpl. rewrite orb_false_r, startsWith_spec. split.
    + intros [r Hr]. exists [], r. exact Hr.
    + intros (a & b & H). destruct a as [|x a]; [|discriminate]. eauto.
  - cbn [includes]. rewrite orb_true_iff, startsWith_spec, IH. split.
    + intros [[r Hr]|(a & b & H)].
      * exists [], r. exact Hr.
      * exists (c :: a), b. rewrite H. reflexivity.
    + intros (a & b & H). destruct a as [|x a].
      * left. eauto.
      * right. injection H as _ H. eauto.
Qed.

(** X18.  Whatever goes wrong, the caller is told one of three things,
    or what the construction of the web3 instance threw: a provider in which
    [http] occurs fails with "Check your node", any other provider that is
    not empty with "Check your Infura ID" (the cause, a 401 or a failure of
    the request, is not passed on), and the empty provider with "No provider
    set". *)
Theorem checkEndpoint_failures (provider : jsstring) (t : list call) (e : exn) :
  (checkEndpoint provider t).1 = Throw e ->
  (includes provider (lit "http") = true /\
   (e = CHECK_NODE \/ newWeb3 provider = Throw e)) \/
  (includes provider (lit "http") = false /\ provider <> [] /\
   e = CHECK_INFURA) \/
  (provider = [] /\ e = NO_PROVIDER).
Proof.
  unfold checkEndpoint.
  destruct (includes provider (lit "http")) eqn:Hi.
  - intros H. left. split; [reflexivity|].
    destruct (newWeb3 provider) as [web3|e'].
    + destruct (getNodeInfo web3); [discriminate|].
      injection H as <-. left. reflexivity.
    + injection H as <-. right. reflexivity.
  - destruct provider as [|c p].
    + intros [= <-]. right. right. auto.
    + intros H. right. left. split; [reflexivity|]. split; [discriminate|].
      destruct (post (INFURA ++ c :: p)) as [reason|status body].
      * injection H as <-. reflexivity.
      * destruct (bool_decide (status = 401)); [|discriminate].
        injection H as <-. reflexivity.
Qed.

(** X19.  A provider without [http] in it is accepted exactly when the
    request to Infura is answered with a status other than 401: a 403 or a
    500 passes the check. *)
Theorem checkEndpoint_infura_accepts (provider : jsstring) (t : list call) :
  includes provider (lit "http") = false -> provider <> [] ->
  ((checkEndpoint provider t).1 = Ok tt <->
   exists status body,
     post (INFURA ++ provider) = Response status body /\ status <> 401).
Proof.
  intros Hi Hne. unfold checkEndpoint. rewrite Hi.
  destruct provider as [|c p]; [congruence|].
  destruct (post (INFURA ++ c :: p)) as [reason|status body].
  - split; [discriminate | intros (st & b & H & _); discriminate].
  - destruct (bool_decide (status = 401)) eqn:Hs.
    + apply bool_decide_eq_true in Hs.
      split; [discriminate | intros (st & b & [= <- _] & Hn); contradiction].
    + apply bool_decide_eq_false in Hs. split; [eauto | reflexivity].
Qed.

(** X20.  One call is made at most, and which one depends on whether
    [http] occurs anywhere in the provider: if it does, Infura is not asked
    (only the node, and not even that when the web3 instance cannot be
    built); if it does not, the node is not asked, and the request goes to
    the Infura address that ends in the provider. *)
Theorem checkEndpoint_calls (provider : jsstring) (t : list call) :
  ((exists a b, provider = a ++ lit "http" ++ b) ->
   (checkEndpoint provider t).2 = t \/
   (checkEndpoint provider t).2 = t ++ [NodeInfo provider]) /\
  ((forall a b, provider <> a ++ lit "http" ++ b) ->
   provider <> [] ->
   (checkEndpoint provider t).2 = t ++ [Post (INFURA ++ provider)]).
Proof.
  split.
  - intros H. apply includes_spec in H. unfold checkEndpoint. rewrite H.
    destruct (newWeb3 provider) as [web3|e]; [|left; reflexivity].
    destruct (getNodeInfo web3); right; reflexivity.
  - intros H Hne.
    assert (Hi : includes provider (lit "http") = false).
    { destruct (includes provider (lit "http")) eqn:E; [|reflexivity].
      apply includes_spec in E as (a & b & E). destruct (H a b E). }
    unfold checkEndpoint. rewrite Hi.
    destruct provider as [|c p]; [congruence|].
    destruct (post (INFURA ++ c :: p)) as [reason|status body];
      [reflexivity|].
    destruct (bool_decide (status = 401)); reflexivity.
Qed.

End EndpointFacts.

(** ** The further properties on examples *)

Section MoreScenarios.
Import Mock Cases.

Lemma getSolcExecutable_downloads_witness :
  let sc := scenario (Response 200 (Ok binary)) (Ok wrote) artifacts in
  (getSolcExecutable (P := platform sc) version066 (world sc [])).1
  = Ok (Some tmpSolc066) /\
  fs (getSolcExecutable (P := platform sc) version066 (world sc [])).2
  = [tmpSolc066; lit "/tmp/solc-repo"] /\
  requests (getSolcExecutable (P := platform sc) version066 (world sc [])).2
  = [github066].
Proof.
  intros sc.
  destruct (getSolcExecutable_downloads (P := platform sc) version066
              (world sc []) (lit "solc-linux-amd64-v0.6.6%2Bcommit.6c089d02")
              binary [lit "/tmp/solc-repo"] [tmpSolc066; lit "/tmp/solc-repo"]
              eq_refl eq_refl eq_refl eq_refl eq_refl eq_refl)
    as (H1 & H2 & H3 & _).
  split; [exact H1|]. split; [exact H2 | exact H3].
Defined.

Lemma getSolcExecutable_download_is_cached_witness :
  let sc := scenario (Response 200 (Ok binary)) (Ok wrote) artifacts in
  let first := getSolcExecutable (P := platform sc) version066 (world sc []) in
  let second := getSolcExecutable (P := platform sc) version066 first.2 in
  second.1 = first.1 /\ second.2 = first.2 /\ requests second.2 = [github066].
Proof.
  intros sc.
  exact (getSolcExecutable_download_is_cached (P := platform sc) version066
           (world sc []) (lit "solc-linux-amd64-v0.6.6%2Bcommit.6c089d02")
           binary [lit "/tmp/solc-repo"] [tmpSolc066; lit "/tmp/solc-repo"]
           eq_refl eq_refl eq_refl eq_refl eq_refl eq_refl eq_refl).
Defined.

Lemma getSolcExecutable_body_fails_witness :
  let sc := scenario (Response 200 (Throw connectionRefused)) (Ok wrote)
                     artifacts in
  (getSolcExecutable (P := platform sc) version066 (world sc [])).1
  = Throw connectionRefused /\
  fs (getSolcExecutable (P := platform sc) version066 (world sc [])).2
  = [lit "/tmp/solc-repo"].
Proof.
  intros sc.
  exact (getSolcExecutable_body_fails (P := platform sc) version066
           (world sc []) (lit "solc-linux-amd64-v0.6.6%2Bcommit.6c089d02")
           connectionRefused [lit "/tmp/solc-repo"]
           eq_refl eq_refl eq_refl eq_refl eq_refl).
Defined.

Lemma getSolcExecutable_paths_and_requests_witness :
  let sc := scenario (Rejected connectionRefused) (Ok wrote) artifacts in
  (tmpSolc066 = tmpSolc066 \/ tmpSolc066 = repoSolc066) /\
  (getSolcExecutable (P := platform sc) version066 (world sc [tmpSolc066])).2
  = world sc [tmpSolc066].
Proof.
  intros sc. split.
  - exact (proj1 (proj2 (getSolcExecutable_paths_and_requests
                           (P := platform sc) version066
                           (world sc [tmpSolc066])))
                 tmpSolc066 eq_refl).
  - exact (proj1 (proj2 (proj2 (getSolcExecutable_paths_and_requests
                                  (P := platform sc) version066
                                  (world sc [tmpSolc066])))
                        tmpSolc066 eq_refl eq_refl)).
Defined.

Lemma useCompiler_falls_back_to_module_witness :
  let sc := scenario (Response 404 (Ok [])) (Ok wrote) artifacts in
  (useCompiler (P := platform sc) version066 (JObject [])
               (world sc [soljson066])).1 = Ok emitted.
Proof.
  intros sc.
  exact (useCompiler_falls_back_to_module (P := platform sc) version066
           (JObject []) (world sc [soljson066])
           (lit "solc-linux-amd64-v0.6.6%2Bcommit.6c089d02") 404 (Ok [])
           (constantSoljson emitted)
           eq_refl eq_refl eq_refl eq_refl ltac:(discriminate)
           eq_refl eq_refl).
Defined.

Lemma recompile_solc_not_found_witness :
  let sc := remoteOnly (Response 404 (Ok [])) notFound artifacts in
  (recompile (P := platform sc) version066 tt (world sc [])).1
  = Throw (Foreign (lit "Error") (lit "solc not found")).
Proof.
  intros sc.
  exact (proj1 (recompile_solc_not_found (P := platform sc) version066 tt
                  (world sc []) [] (JObject []) (lit "A.sol") (lit "A")
                  (lit "solc-linux-amd64-v0.6.6%2Bcommit.6c089d02")
                  404 (Ok []) (Foreign (lit "Error") (lit "solc not found"))
                  eq_refl eq_refl eq_refl eq_refl eq_refl ltac:(discriminate)
                  eq_refl eq_refl)).
Defined.

Lemma extract_logs_error_messages_witness :
  let sc := scenario (Rejected connectionRefused) (Ok wrote) artifacts in
  extract (P := platform sc) version066 otherContractWithErrors
          (lit "A.sol") (lit "A") (world sc [])
  = (Throw (Error GENERIC_MESSAGE),
     addLogs [missingTarget (lit "A.sol") (lit "A") version066
                [FromJson (JString (lit "File not found"))]] (world sc [])).
Proof.
  intros sc.
  refine (extract_logs_error_messages (P := platform sc) version066
            otherContractWithErrors (lit "A.sol") (lit "A")
            [JObject [(lit "severity", JString (lit "warning"));
                      (lit "message", JString (lit "unused variable"))];
             JObject [(lit "severity", JString (lit "error"));
                      (lit "message", JString (lit "File not found"))]]
            (world sc []) eq_refl eq_refl _).
  repeat constructor; discriminate.
Defined.

Lemma extract_null_diagnostic_witness :
  let sc := scenario (Rejected connectionRefused) (Ok wrote) artifacts in
  extract (P := platform sc) version066 nullDiagnostic
          (lit "A.sol") (lit "A") (world sc [])
  = (Throw TypeError, world sc []).
Proof.
  intros sc.
  refine (extract_null_diagnostic (P := platform sc) version066
            nullDiagnostic (lit "A.sol") (lit "A") [JObject []; JNull]
            (world sc []) eq_refl eq_refl _).
  right. left. reflexivity.
Defined.

Lemma extract_result_inversion_witness :
  let sc := scenario (Rejected connectionRefused) (Ok wrote) artifacts in
  targetMissing (P := platform sc) artifacts (lit "A.sol") (lit "A") = Ok false.
Proof.
  intros sc.
  exact (proj1 (extract_result_inversion (P := platform sc) version066
                  artifacts (lit "A.sol") (lit "A") (world sc []) (world sc [])
                  {| bytecode := lit "0x6001"; deployedBytecode := lit "0x6002";
                     metadata := lit "{}" |} eq_refl)).
Defined.

Lemma extract_entry_without_evm_witness :
  let sc := scenario (Rejected connectionRefused) (Ok wrote) artifacts in
  extract (P := platform sc) version066 withoutEvm
          (lit "A.sol") (lit "A") (world sc [])
  = (Throw TypeError, world sc []).
Proof.
  intros sc.
  exact (proj2 (extract_entry_without_evm (P := platform sc) version066
                  withoutEvm (lit "A.sol") (lit "A")
                  [(lit "metadata", JString (lit "{}"))] (world sc [])
                  eq_refl eq_refl)).
Defined.

Lemma extract_bytecode_without_object_witness :
  let sc := scenario (Rejected connectionRefused) (Ok wrote) artifacts in
  extract (P := platform sc) version066 withoutObject
          (lit "A.sol") (lit "A") (world sc [])
  = (Ok {| bytecode := lit "0xundefined"; deployedBytecode := lit "0x6002";
           metadata := lit "{}" |}, world sc []).
Proof.
  intros sc.
  exact (extract_bytecode_without_object (P := platform sc) version066
           withoutObject (lit "A.sol") (lit "A") [] (lit "6002") (lit "{}")
           (world sc []) eq_refl eq_refl eq_refl eq_refl).
Defined.

Lemma checkEndpoint_failures_witness :
  includes (lit "http://localhost:8545") (lit "http") = true /\
  (CHECK_NODE = CHECK_NODE \/
   @newWeb3 (web false (Rejected connectionRefused))
            (lit "http://localhost:8545") = Throw CHECK_NODE).
Proof.
  destruct (checkEndpoint_failures
              (W := web false (Rejected connectionRefused))
              (lit "http://localhost:8545") [] CHECK_NODE eq_refl)
    as [H|[(H & _)|(H & _)]]; [exact H | discriminate H | discriminate H].
Defined.

Lemma checkEndpoint_infura_accepts_witness :
  (checkEndpoint (W := web true (Response 500 (Ok [])))
                 (lit "0123456789abcdef") []).1 = Ok tt.
Proof.
  apply (proj2 (checkEndpoint_infura_accepts
                  (W := web true (Response 500 (Ok [])))
                  (lit "0123456789abcdef") [] eq_refl ltac:(discriminate))).
  exists 500, (Ok []). split; [reflexivity | discriminate].
Defined.

Lemma checkEndpoint_calls_witness :
  ((checkEndpoint (W := web true (Response 200 (Ok [])))
                  (lit "my-http-project") []).2 = [] \/
   (checkEndpoint (W := web true (Response 200 (Ok [])))
                  (lit "my-http-project") []).2
   = [] ++ [NodeInfo (lit "my-http-project")]) /\
  (checkEndpoint (W := web true (Response 200 (Ok [])))
                 (lit "0123456789abcdef") []).2
  = [Post (lit "https://mainnet.infura.io/v3/0123456789abcdef")].
Proof.
  split.
  - apply (proj1 (checkEndpoint_calls
                    (W := web true (Response 200 (Ok [])))
                    (lit "my-http-project") [])).
    exists (lit "my-"), (lit "-project"). reflexivity.
  - apply (proj2 (checkEndpoint_calls
                    (W := web true (Response 200 (Ok [])))
                    (lit "0123456789abcdef") [])).
    + intros a b H.
      assert (E : includes (lit "0123456789abcdef") (lit "http") = true)
        by (apply includes_spec; eauto).
      discriminate E.
    + discriminate.
Defined.

End MoreScenarios.
